(** * Realtime messaging layer of the AOV social backend

    Shallow embedding of the conversation / message services
    ([app/services/message_service.py], [app/services/message_consumer.py]),
    the notification consumer ([app/services/notification_consumer.py]),
    the Redis presence and pub/sub helpers ([app/services/redis_client.py])
    and the websocket frame handler ([app/api/routes/websocket.py]).

    Document collections are lists in storage order: [find_one] returns the
    first match, [save] replaces the documents carrying the saved [id],
    bulk [update] maps over the matching documents, [insert] appends. *)

From Stdlib Require Import ZArith String Ascii Bool.
From stdpp Require Import base gmap sets list strings sorting.

Open Scope Z_scope.

(* ------------------------------------------------------------------ *)
(** ** Enumerations and documents ([app/models/conversation.py]) *)

Inductive ConversationType := DIRECT | GROUP.
Inductive ParticipantRole := MEMBER | ADMIN.
Inductive MessageType := TEXT | IMAGE | VIDEO | MIXED.
Inductive MessageStatus := SENT | DELIVERED | SEEN.

Definition ConversationType_eqb (a b : ConversationType) : bool :=
  match a, b with DIRECT, DIRECT | GROUP, GROUP => true | _, _ => false end.

Definition MessageStatus_eqb (a b : MessageStatus) : bool :=
  match a, b with
  | SENT, SENT | DELIVERED, DELIVERED | SEEN, SEEN => true
  | _, _ => false
  end.

Record MediaAttachment := mkMedia {
  media_url : string;
  media_type : string  (* "image" | "video" *)
}.

Record Conversation := mkConversation {
  conv_id : string;
  conv_type : ConversationType;
  conv_name : option string;
  conv_avatar_url : option string;
  conv_created_by : option string;
  conv_created_at : Z;
  conv_updated_at : Z;
  conv_last_message_id : option string;
  conv_last_message_content : option string;
  conv_last_message_at : option Z
}.

Record ConversationParticipant := mkParticipant {
  part_id : string;
  part_conversation_id : string;
  part_user_id : string;
  part_role : ParticipantRole;
  part_last_seen_message_id : option string;
  part_unread_count : Z;
  part_joined_at : Z;
  part_left_at : option Z
}.

Record Message := mkMessage {
  msg_id : string;
  msg_conversation_id : string;
  msg_sender_id : string;
  msg_content : option string;
  msg_type : MessageType;
  msg_media : list MediaAttachment;
  msg_status : MessageStatus;
  msg_reply_to_message_id : option string;
  msg_created_at : Z
}.

(** The three collections of the document store. *)
Record DB := mkDB {
  conversations : list Conversation;
  participants : list ConversationParticipant;
  messages : list Message
}.

(** [MessageCreate] schema. *)
Record MessageCreate := mkMessageCreate {
  mc_content : option string;
  mc_media : list MediaAttachment;
  mc_reply_to_message_id : option string
}.

(** Exceptions raised by the services. *)
Inductive PyError :=
| ValueError (msg : string)
| OtherError (msg : string).

(* ------------------------------------------------------------------ *)
(** ** Field setters (pydantic attribute assignment) *)

Definition set_part_seen (m : string) (p : ConversationParticipant)
  : ConversationParticipant :=
  mkParticipant (part_id p) (part_conversation_id p) (part_user_id p)
    (part_role p) (Some m) 0 (part_joined_at p) (part_left_at p).

Definition inc_unread (p : ConversationParticipant) : ConversationParticipant :=
  mkParticipant (part_id p) (part_conversation_id p) (part_user_id p)
    (part_role p) (part_last_seen_message_id p) (part_unread_count p + 1)
    (part_joined_at p) (part_left_at p).

Definition set_msg_status (s : MessageStatus) (m : Message) : Message :=
  mkMessage (msg_id m) (msg_conversation_id m) (msg_sender_id m)
    (msg_content m) (msg_type m) (msg_media m) s
    (msg_reply_to_message_id m) (msg_created_at m).

Definition set_conv_last_message (mid : string) (preview : string) (at_ : Z)
    (c : Conversation) : Conversation :=
  mkConversation (conv_id c) (conv_type c) (conv_name c) (conv_avatar_url c)
    (conv_created_by c) (conv_created_at c) at_ (Some mid) (Some preview)
    (Some at_).

(* ------------------------------------------------------------------ *)
(** ** Collection primitives *)

(** [doc.save()]: replace every stored document carrying the same id. *)
Definition save_by {A} (id : A -> string) (d : A) (l : list A) : list A :=
  map (fun x => if String.eqb (id x) (id d) then d else x) l.

(** Python truthiness of an optional string. *)
Definition truthy_str (o : option string) : bool :=
  match o with Some s => negb (String.eqb s "") | None => false end.

(** [ConversationParticipant.left_at == None] *)
Definition is_active (p : ConversationParticipant) : bool :=
  match part_left_at p with None => true | Some _ => false end.

(* ------------------------------------------------------------------ *)
(** ** [MessageService] *)

Module MessageService.

(** [find_one(conversation_id == c, user_id == u)] (any [left_at]). *)
Definition find_participant (c u : string) (ps : list ConversationParticipant)
  : option ConversationParticipant :=
  List.find (fun p => String.eqb (part_conversation_id p) c
                      && String.eqb (part_user_id p) u) ps.

(** [is_participant]: an active record for [(c, u)] exists. *)
Definition is_participant (db : DB) (c u : string) : bool :=
  match List.find (fun p => String.eqb (part_conversation_id p) c
                            && String.eqb (part_user_id p) u
                            && is_active p) (participants db) with
  | Some _ => true
  | None => false
  end.

(** Message type selection of [send_message]. *)
Definition message_type_of (data : MessageCreate) : MessageType :=
  match mc_media data with
  | [] => TEXT
  | media =>
      if existsb (fun m => String.eqb (media_type m) "video") media
      then (if truthy_str (mc_content data) then MIXED else VIDEO)
      else (if truthy_str (mc_content data) then MIXED else IMAGE)
  end.

(** [data.content[:100] if data.content else "[Media]"] *)
Definition preview_of (content : option string) : string :=
  match content with
  | Some s => if String.eqb s "" then "[Media]" else substring 0 100 s
  | None => "[Media]"
  end.

(** The [$inc] filter: other, active participants of the conversation. *)
Definition unread_target (c sender : string) (p : ConversationParticipant) : bool :=
  String.eqb (part_conversation_id p) c
  && negb (String.eqb (part_user_id p) sender)
  && is_active p.

(** [send_message]: [new_id] is the fresh uuid of the message and [now]
    its creation time.  Returns the new store and the message or the
    raised exception. *)
Definition send_message (db : DB) (conversation_id sender_id : string)
    (data : MessageCreate) (new_id : string) (now : Z)
  : DB * (PyError + Message) :=
  if negb (is_participant db conversation_id sender_id) then
    (db, inl (ValueError "User is not a participant in this conversation"))
  else
    let message := mkMessage new_id conversation_id sender_id
                     (mc_content data) (message_type_of data) (mc_media data)
                     SENT (mc_reply_to_message_id data) now in
    let msgs := messages db ++ [message] in
    let convs :=
      match List.find (fun c => String.eqb (conv_id c) conversation_id)
              (conversations db) with
      | Some conv =>
          save_by conv_id
            (set_conv_last_message new_id (preview_of (mc_content data)) now conv)
            (conversations db)
      | None => conversations db
      end in
    let parts :=
      map (fun p => if unread_target conversation_id sender_id p
                    then inc_unread p else p) (participants db) in
    (mkDB convs parts msgs, inr message).

(** [mark_conversation_seen]: the participant record is looked up
    regardless of [left_at]; the status update ignores [message_id]. *)
Definition seen_target (c u : string) (m : Message) : bool :=
  String.eqb (msg_conversation_id m) c
  && negb (String.eqb (msg_sender_id m) u)
  && negb (MessageStatus_eqb (msg_status m) SEEN).

Definition mark_conversation_seen (db : DB) (conversation_id user_id message_id : string)
  : DB :=
  match find_participant conversation_id user_id (participants db) with
  | Some participant =>
      let parts := save_by part_id (set_part_seen message_id participant)
                     (participants db) in
      let msgs := map (fun m => if seen_target conversation_id user_id m
                                then set_msg_status SEEN m else m)
                      (messages db) in
      mkDB (conversations db) parts msgs
  | None => db
  end.

(** [add_participant]: [new_id] is the uuid of a fresh record, [now] the
    current time. *)
Definition add_participant (db : DB) (conversation_id user_id : string)
    (role : ParticipantRole) (new_id : string) (now : Z)
  : DB * ConversationParticipant :=
  match find_participant conversation_id user_id (participants db) with
  | Some existing =>
      match part_left_at existing with
      | Some _ =>
          let rejoined :=
            mkParticipant (part_id existing) (part_conversation_id existing)
              (part_user_id existing) role (part_last_seen_message_id existing)
              (part_unread_count existing) now None in
          (mkDB (conversations db) (save_by part_id rejoined (participants db))
                (messages db), rejoined)
      | None => (db, existing)
      end
  | None =>
      let participant :=
        mkParticipant new_id conversation_id user_id role None 0 now None in
      (mkDB (conversations db) (participants db ++ [participant]) (messages db),
       participant)
  end.

(** [remove_participant] (soft delete of the active record). *)
Definition remove_participant (db : DB) (conversation_id user_id : string) (now : Z)
  : DB * bool :=
  match List.find (fun p => String.eqb (part_conversation_id p) conversation_id
                            && String.eqb (part_user_id p) user_id
                            && is_active p) (participants db) with
  | Some p =>
      let left :=
        mkParticipant (part_id p) (part_conversation_id p) (part_user_id p)
          (part_role p) (part_last_seen_message_id p) (part_unread_count p)
          (part_joined_at p) (Some now) in
      (mkDB (conversations db) (save_by part_id left (participants db))
            (messages db), true)
  | None => (db, false)
  end.

(** [Conversation.find_one(id == cid, type == DIRECT)] *)
Definition find_direct (db : DB) (cid : string) : option Conversation :=
  List.find (fun c => String.eqb (conv_id c) cid
                      && ConversationType_eqb (conv_type c) DIRECT)
            (conversations db).

(** Loop of [get_direct_conversation] over the conversation ids of user 1
    (a Python set: the iteration order is the one of [ids]). *)
Fixpoint first_direct (db : DB) (user_id_2 : string) (ids : list string)
  : option Conversation :=
  match ids with
  | [] => None
  | cid :: rest =>
      if is_participant db cid user_id_2 then
        match find_direct db cid with
        | Some conv => Some conv
        | None => first_direct db user_id_2 rest
        end
      else first_direct db user_id_2 rest
  end.

Definition active_conv_ids (db : DB) (u : string) : list string :=
  remove_dups (map part_conversation_id
                 (List.filter (fun p => String.eqb (part_user_id p) u && is_active p)
                    (participants db))).

Definition get_direct_conversation (db : DB) (user_id_1 user_id_2 : string)
  : option Conversation :=
  first_direct db user_id_2 (active_conv_ids db user_id_1).

(** [ConversationCreate] schema. *)
Record ConversationCreate := mkConversationCreate {
  cc_type : ConversationType;
  cc_participant_ids : list string;
  cc_name : option string;
  cc_avatar_url : option string
}.

(** The loop adding the other participants; [gen] supplies fresh uuids. *)
Fixpoint add_members (db : DB) (cid : string) (users : list string)
    (gen : nat -> string) (k : nat) (now : Z) : DB :=
  match users with
  | [] => db
  | u :: rest =>
      add_members (fst (add_participant db cid u MEMBER (gen k) now))
        cid rest gen (S k) now
  end.

(** [create_conversation]: [gen 0] is the conversation uuid, [gen (S k)]
    the uuids of the participant records it inserts. *)
Definition create_conversation_new (db : DB) (creator_id : string)
    (data : ConversationCreate) (gen : nat -> string) (now : Z)
  : DB * (PyError + Conversation) :=
  let is_group := ConversationType_eqb (cc_type data) GROUP in
  let conversation :=
    mkConversation (gen 0%nat) (cc_type data)
      (if is_group then cc_name data else None) (cc_avatar_url data)
      (if is_group then Some creator_id else None) now now None None None in
  let db1 := mkDB (conversations db ++ [conversation]) (participants db)
               (messages db) in
  let creator_role := if is_group then ADMIN else MEMBER in
  let db2 := fst (add_participant db1 (gen 0%nat) creator_id creator_role
                    (gen 1%nat) now) in
  let db3 := add_members db2 (gen 0%nat) (cc_participant_ids data) gen 2 now in
  (db3, inr conversation).

Definition create_conversation (db : DB) (creator_id : string)
    (data : ConversationCreate) (gen : nat -> string) (now : Z)
  : DB * (PyError + Conversation) :=
  match cc_type data with
  | DIRECT =>
      match cc_participant_ids data with
      | [other_user_id] =>
          match get_direct_conversation db creator_id other_user_id with
          | Some existing => (db, inr existing)
          | None => create_conversation_new db creator_id data gen now
          end
      | _ => (db, inl (ValueError "Direct chat requires exactly one other participant"))
      end
  | GROUP => create_conversation_new db creator_id data gen now
  end.

(** Order of [sort(-Message.created_at)]: newer first. *)
Definition newer_first (a b : Message) : Prop := msg_created_at b <= msg_created_at a.

#[global] Instance newer_first_dec : RelDecision newer_first.
Proof. intros a b. unfold newer_first. apply _. Defined.

(** [get_messages(conversation_id, cursor, limit)]: the query
    [conversation_id == c, deleted_at == None, created_at < cursor], sorted
    by [-created_at], [limit + 1] documents fetched.  [cursor] is the
    parsed [datetime] of the cursor string ([None] when no cursor is given).
    The embedded [Message] has no [deleted_at]: no code path of the backend
    sets it, so that test keeps every stored message.  Among equal
    timestamps the sort keeps storage order.  The result is
    ([data], [next_cursor], [has_more]); [data] is oldest first and the
    sender enrichment is left out. *)
Definition message_query (db : DB) (conversation_id : string) (cursor : option Z)
  : list Message :=
  List.filter (fun m => String.eqb (msg_conversation_id m) conversation_id
                        && match cursor with
                           | Some t => Z.ltb (msg_created_at m) t
                           | None => true
                           end) (messages db).

Definition get_messages (db : DB) (conversation_id : string) (cursor : option Z)
    (limit : nat) : list Message * option Z * bool :=
  let matching := message_query db conversation_id cursor in
  let fetched := take (S limit) (merge_sort newer_first matching) in
  let has_more := Nat.ltb limit (length fetched) in
  let page := if has_more then take limit fetched else fetched in
  let next_cursor :=
    if has_more then
      match stdpp.list_basics.list.last page with
      | Some m => Some (msg_created_at m)
      | None => None
      end
    else None in
  (reverse page, next_cursor, has_more).

End MessageService.

(* ------------------------------------------------------------------ *)
(** ** Decoded JSON values ([json.loads]) *)

Local Set Warnings "-register-all".

Inductive JVal :=
| JNull
| JBool (b : bool)
| JInt (z : Z)
| JStr (s : string)
| JList (xs : list JVal)
| JObj (kvs : list (string * JVal)).

(** Python truthiness. *)
Definition truthy (v : JVal) : bool :=
  match v with
  | JNull => false
  | JBool b => b
  | JInt z => negb (Z.eqb z 0)
  | JStr s => negb (String.eqb s "")
  | JList xs => negb (match xs with [] => true | _ => false end)
  | JObj kvs => negb (match kvs with [] => true | _ => false end)
  end.

(** [d.get(k)] on a decoded object (last binding wins, as in [json.loads]). *)
Definition jget_opt (kvs : list (string * JVal)) (k : string) : option JVal :=
  List.fold_left (fun acc kv => if String.eqb (fst kv) k then Some (snd kv) else acc)
    kvs None.

Definition jget (kvs : list (string * JVal)) (k : string) : JVal :=
  match jget_opt kvs k with Some v => v | None => JNull end.

(** Python [==] on decoded JSON values ([True == 1], [False == 0]). *)
Fixpoint py_eq (a b : JVal) {struct a} : bool :=
  let num v := match v with
               | JBool true => Some 1 | JBool false => Some 0
               | JInt z => Some z | _ => None end in
  match a, b with
  | JNull, JNull => true
  | JStr x, JStr y => String.eqb x y
  | JList xs, JList ys =>
      (fix go (xs ys : list JVal) : bool :=
         match xs, ys with
         | [], [] => true
         | x :: xs', y :: ys' => py_eq x y && go xs' ys'
         | _, _ => false
         end) xs ys
  | JObj xs, JObj ys =>
      Nat.eqb (length xs) (length ys)
      && forallb (fun kv =>
           match jget_opt ys (fst kv) with
           | Some w => py_eq (snd kv) w
           | None => false
           end) xs
  | _, _ =>
      match num a, num b with
      | Some x, Some y => Z.eqb x y
      | _, _ => false
      end
  end.

(* ------------------------------------------------------------------ *)
(** ** [MessageConsumer] handlers *)

Module MessageConsumer.

(** [payload.get("message_id")]: [None] or an empty id is falsy. *)
Definition handle_message_delivered (db : DB) (message_id : option string) : DB :=
  match message_id with
  | None => db
  | Some mid =>
      if String.eqb mid "" then db else
      match List.find (fun m => String.eqb (msg_id m) mid) (messages db) with
      | Some msg =>
          if MessageStatus_eqb (msg_status msg) SENT then
            mkDB (conversations db) (participants db)
              (save_by msg_id (set_msg_status DELIVERED msg) (messages db))
          else db
      | None => db
      end
  end.

(** Payloads [_handle_message_sent] publishes on [message:user:<id>]. *)
Inductive Push :=
| PushNewMessage (conversation_id message_id sender_id : string)
| PushAck (temp_id : JVal) (message_id : string).

(** [_handle_message_sent(payload)].  Both publishers of [message.sent]
    (the websocket handler and the REST route) put strings in
    [message_id], [conversation_id] and [sender_id]; a missing or empty one
    is falsy.  [is_online] is the Redis presence check.  The result lists
    the [publish_to_user(user, "message", payload)] calls in order. *)
Definition handle_message_sent (db : DB) (message_id conversation_id sender_id : option string)
    (temp_id : JVal) (is_online : string -> bool) : list (string * Push) :=
  match message_id, conversation_id, sender_id with
  | Some mid, Some cid, Some sid =>
      if String.eqb mid "" || String.eqb cid "" || String.eqb sid "" then [] else
      match List.find (fun m => String.eqb (msg_id m) mid) (messages db) with
      | None => []
      | Some msg =>
          let recipients :=
            List.filter (fun p => String.eqb (part_conversation_id p) cid
                                  && negb (String.eqb (part_user_id p) sid)
                                  && is_active p) (participants db) in
          flat_map (fun p => if is_online (part_user_id p)
                             then [(part_user_id p, PushNewMessage cid (msg_id msg) (msg_sender_id msg))]
                             else []) recipients
          ++ (if is_online sid then [(sid, PushAck temp_id mid)] else [])
      end
  | _, _, _ => []
  end.

End MessageConsumer.

(* ------------------------------------------------------------------ *)
(** ** [NotificationConsumer._process_message] *)

Module NotificationConsumer.

Inductive NotificationType :=
| POST_LIKED | POST_COMMENTED | POST_SHARED | MENTIONED | REPLY_THREAD.

Definition ROUTING_KEY_TO_TYPE (rk : string) : option NotificationType :=
  if String.eqb rk "post.liked" then Some POST_LIKED
  else if String.eqb rk "post.commented" then Some POST_COMMENTED
  else if String.eqb rk "post.shared" then Some POST_SHARED
  else if String.eqb rk "comment.mentioned" then Some MENTIONED
  else if String.eqb rk "comment.replied" then Some REPLY_THREAD
  else None.

Record Notification := mkNotification {
  notif_id : string;
  notif_user_id : string;
  notif_actor_id : string;
  notif_type : NotificationType;
  notif_post_id : option string;
  notif_comment_id : option string;
  notif_content : string
}.

(** What the consumer touches: the notifications collection and the
    payloads published on [notification:user:<id>]. *)
Record NState := mkNState {
  notifications : list Notification;
  published : list (string * Notification)
}.

(** The body of an incoming queue message once decoded. *)
Inductive Body :=
| InvalidJson                          (* [json.JSONDecodeError] *)
| NotAnObject (v : JVal)               (* [body.get] raises AttributeError *)
| Object (kvs : list (string * JVal)).

Definition generate_content (t : NotificationType) (actor_username : string) : string :=
  match t with
  | POST_LIKED => actor_username ++ " đã thích bài viết của bạn"
  | POST_COMMENTED => actor_username ++ " đã bình luận bài viết của bạn"
  | POST_SHARED => actor_username ++ " đã chia sẻ bài viết của bạn"
  | MENTIONED => actor_username ++ " đã nhắc đến bạn trong một bình luận"
  | REPLY_THREAD => actor_username ++ " đã trả lời bình luận của bạn"
  end.

(** Pydantic validation of a [str] / [Optional[str]] field. *)
Definition as_str (v : JVal) : option string :=
  match v with JStr s => Some s | _ => None end.

Definition as_opt_str (v : JVal) : option (option string) :=
  match v with JNull => Some None | JStr s => Some (Some s) | _ => None end.

(** [users] is the [User] collection as (id, username) pairs, [is_online]
    the Redis presence check, [new_id] the uuid of the notification.
    Every exception inside the [try] is logged and the message is acked:
    the state is then left as it was before the failing step. *)
Definition process_message (st : NState) (routing_key : string) (body : Body)
    (users : list (string * string)) (is_online : string -> bool)
    (new_id : string) : NState :=
  match body with
  | InvalidJson => st
  | NotAnObject _ => st
  | Object kvs =>
      match ROUTING_KEY_TO_TYPE routing_key with
      | None => st
      | Some ntype =>
          let actor_id := jget kvs "actor_id" in
          let user_id := jget kvs "user_id" in
          let post_id := jget kvs "post_id" in
          let comment_id := jget kvs "comment_id" in
          if negb (truthy actor_id) || negb (truthy user_id) then st
          else if py_eq actor_id user_id then st
          else
            let actor_username :=
              match actor_id with
              | JStr a =>
                  match List.find (fun u => String.eqb (fst u) a) users with
                  | Some u => snd u
                  | None => "Someone"
                  end
              | _ => "Someone"
              end in
            let content := generate_content ntype actor_username in
            match as_str user_id, as_str actor_id, as_opt_str post_id,
                  as_opt_str comment_id with
            | Some uid, Some aid, Some pid, Some cid =>
                let n := mkNotification new_id uid aid ntype pid cid content in
                let st1 := mkNState (notifications st ++ [n]) (published st) in
                if is_online uid
                then mkNState (notifications st1) (published st1 ++ [(uid, n)])
                else st1
            | _, _, _, _ => st  (* pydantic ValidationError, caught *)
            end
      end
  end.

End NotificationConsumer.

(* ------------------------------------------------------------------ *)
(** ** [websocket.handle_client_message] *)

Module Websocket.

(** Frames sent back on the socket by the handler. *)
Inductive OutFrame :=
| FramePong
| FrameAck (tempId : JVal) (messageId : string) (status : string)
| FrameError (message : string).

(** Events published on the message events exchange
    ([publish_message_event] catches its own failures and returns a bool,
    so it never raises). *)
Inductive MessageEvent :=
| EvMessageSent (message_id conversation_id sender_id : string) (temp_id : JVal)
| EvTyping (conversation_id : JVal) (user_id : string)
| EvMessageSeen (conversation_id message_id : string) (user_id : string).

(** Outcome of the handler: it returns (the connection loop goes on) or an
    exception escapes to [websocket_endpoint] (which closes the socket). *)
Inductive HandlerResult :=
| Returned (db : DB) (events : list MessageEvent) (frames : list OutFrame)
| Escaped (e : PyError).

(** Iterating over [media] in the list comprehension. *)
Definition iter_media (v : JVal) : PyError + list JVal :=
  match v with
  | JList xs => inr xs
  | JStr s => inr (map (fun c => JStr (String c EmptyString)) (list_ascii_of_string s))
  | JObj kvs => inr (map (fun kv => JStr (fst kv)) kvs)
  | JNull => inl (OtherError "'NoneType' object is not iterable")
  | JBool _ => inl (OtherError "'bool' object is not iterable")
  | JInt _ => inl (OtherError "'int' object is not iterable")
  end.

(** An element of the comprehension: a dict becomes a [MediaAttachment], anything else is kept as is. *)
Inductive MediaItem :=
| Attached (m : MediaAttachment)
| Raw (v : JVal).

(** [MediaAttachment] built from a dict: [url] and [type] are required strings. *)
Definition media_attachment_of (kvs : list (string * JVal)) : PyError + MediaAttachment :=
  match jget_opt kvs "url", jget_opt kvs "type" with
  | Some (JStr u), Some (JStr t) => inr (mkMedia u t)
  | _, _ => inl (ValueError "validation error for MediaAttachment")
  end.

Fixpoint build_attachments (xs : list JVal) : PyError + list MediaItem :=
  match xs with
  | [] => inr []
  | JObj kvs :: rest =>
      match media_attachment_of kvs with
      | inl e => inl e
      | inr m => match build_attachments rest with
                 | inl e => inl e
                 | inr ms => inr (Attached m :: ms)
                 end
      end
  | v :: rest =>
      match build_attachments rest with
      | inl e => inl e
      | inr ms => inr (Raw v :: ms)
      end
  end.

(** [MessageCreate(content=..., media=..., reply_to_message_id=...)]:
    field validation then [model_post_init]. *)
Definition make_message_create (content : JVal) (media : list MediaItem) (reply : JVal)
  : PyError + MessageCreate :=
  let atts := omap (fun i => match i with Attached m => Some m | Raw _ => None end) media in
  if negb (Nat.eqb (length atts) (length media))
  then inl (ValueError "validation error for MessageCreate: media")
  else
  match NotificationConsumer.as_opt_str content,
        NotificationConsumer.as_opt_str reply with
  | Some c, Some r =>
      let data := mkMessageCreate c atts r in
      if negb (truthy_str c) && (match atts with [] => true | _ => false end)
      then inl (ValueError "Message must have content or media")
      else inr data
  | _, _ => inl (ValueError "validation error for MessageCreate")
  end.

(** [message_service.send_message] called with a decoded [conversationId]:
    a non-string id matches no participant record. *)
Definition send_message_j (db : DB) (conversation_id : JVal) (sender_id : string)
    (data : MessageCreate) (new_id : string) (now : Z)
  : DB * (PyError + Message) :=
  match conversation_id with
  | JStr c => MessageService.send_message db c sender_id data new_id now
  | _ => (db, inl (ValueError "User is not a participant in this conversation"))
  end.

(** The [try] block of the [SEND_MESSAGE] branch, up to the ACK. *)
Definition send_message_try (db : DB) (user_id : string) (message : list (string * JVal))
    (new_id : string) (now : Z) : DB * (PyError + (MessageEvent * Message)) :=
  let conversation_id := jget message "conversationId" in
  let content := jget message "content" in
  let media := match jget_opt message "media" with Some v => v | None => JList [] end in
  let temp_id := jget message "tempId" in
  match iter_media media with
  | inl e => (db, inl e)
  | inr xs =>
      match build_attachments xs with
      | inl e => (db, inl e)
      | inr items =>
          match make_message_create content items (jget message "replyToMessageId") with
          | inl e => (db, inl e)
          | inr data =>
              match send_message_j db conversation_id user_id data new_id now with
              | (db', inl e) => (db', inl e)
              | (db', inr msg) =>
                  match conversation_id with
                  | JStr c => (db', inr (EvMessageSent (msg_id msg) c user_id temp_id, msg))
                  | _ => (db', inl (OtherError "unreachable"))
                  end
              end
          end
      end
  end.

Definition error_text (e : PyError) : string :=
  match e with
  | ValueError m => m                 (* except ValueError as e: str(e) *)
  | OtherError _ => "Failed to send message"
  end.

(** [handle_client_message(user_id, websocket, message)]; [new_id] and
    [now] are the uuid and creation time a sent message receives. *)
Definition handle_client_message (db : DB) (user_id : string)
    (message : list (string * JVal)) (new_id : string) (now : Z) : HandlerResult :=
  match jget message "type" with
  | JStr "ping" => Returned db [] [FramePong]
  | JStr "SEND_MESSAGE" =>
      let conversation_id := jget message "conversationId" in
      let content := jget message "content" in
      let media := match jget_opt message "media" with Some v => v | None => JList [] end in
      if negb (truthy conversation_id) || (negb (truthy content) && negb (truthy media))
      then Returned db []
             [FrameError "Invalid message: missing conversationId or content/media"]
      else
        match send_message_try db user_id message new_id now with
        | (db', inr (ev, msg)) =>
            Returned db' [ev] [FrameAck (jget message "tempId") (msg_id msg) "SENT"]
        | (db', inl e) => Returned db' [] [FrameError (error_text e)]
        end
  | JStr "TYPING" =>
      let conversation_id := jget message "conversationId" in
      if truthy conversation_id
      then Returned db [EvTyping conversation_id user_id] []
      else Returned db [] []
  | JStr "MARK_SEEN" =>
      match jget message "conversationId", jget message "messageId" with
      | JStr c, JStr m =>
          if negb (String.eqb c "") && negb (String.eqb m "")
          then Returned (MessageService.mark_conversation_seen db c user_id m)
                 [EvMessageSeen c m user_id] []
          else Returned db [] []
      | _, _ => Returned db [] []  (* non-string ids: not modelled further *)
      end
  | _ => Returned db [] []
  end.

End Websocket.

(* ------------------------------------------------------------------ *)
(** ** Redis presence ([RedisService.add_socket / remove_socket /
    is_user_online]) *)

Module Presence.

(** A Redis set value with its optional expiry instant (seconds). *)
Record SetEntry := mkEntry {
  members : gset string;
  expire_at : option Z
}.

(** Redis keyspace restricted to set values. *)
Abbreviation RedisStore := (gmap string SetEntry).

(** A key with a TTL is gone once [now] passes its expiry instant. *)
Definition live (now : Z) (e : SetEntry) : bool :=
  match expire_at e with None => true | Some t => bool_decide (now <= t) end.

Definition lookup_live (now : Z) (k : string) (st : RedisStore) : option SetEntry :=
  match st !! k with
  | Some e => if live now e then Some e else None
  | None => None
  end.

(** SADD: on a missing (or expired) key a fresh set without TTL is created. *)
Definition sadd (now : Z) (k m : string) (st : RedisStore) : RedisStore :=
  match lookup_live now k st with
  | Some e => <[k := mkEntry ({[m]} ∪ members e) (expire_at e)]> st
  | None => <[k := mkEntry {[m]} None]> st
  end.

(** EXPIRE: sets the TTL of an existing key. *)
Definition expire (now : Z) (k : string) (ttl : Z) (st : RedisStore) : RedisStore :=
  match lookup_live now k st with
  | Some e => <[k := mkEntry (members e) (Some (now + ttl))]> st
  | None => st
  end.

(** SREM: Redis drops a set that becomes empty. *)
Definition srem (now : Z) (k m : string) (st : RedisStore) : RedisStore :=
  match lookup_live now k st with
  | Some e =>
      let ms := members e ∖ {[m]} in
      if decide (ms = ∅) then delete k st else <[k := mkEntry ms (expire_at e)]> st
  | None => delete k st
  end.

Definition scard (now : Z) (k : string) (st : RedisStore) : nat :=
  match lookup_live now k st with Some e => size (members e) | None => 0%nat end.

Definition socket_key (user_id : string) : string :=
  "user:" ++ user_id ++ ":sockets".

Definition add_socket (now : Z) (user_id socket_id : string) (st : RedisStore)
  : RedisStore :=
  let key := socket_key user_id in
  expire now key 86400 (sadd now key socket_id st).

Definition remove_socket (now : Z) (user_id socket_id : string) (st : RedisStore)
  : RedisStore :=
  let key := socket_key user_id in
  let st1 := srem now key socket_id st in
  if Nat.eqb (scard now key st1) 0 then delete key st1 else st1.

Definition is_user_online (now : Z) (user_id : string) (st : RedisStore) : bool :=
  Nat.ltb 0 (scard now (socket_key user_id) st).

(** Connection lifecycle of one principal, each event stamped with the
    instant it runs at; the connection manager registers a fresh socket id
    on connect and removes it on disconnect. *)
Inductive ConnEvent :=
| Connect (socket_id : string)
| Disconnect (socket_id : string).

Definition apply_event (user_id : string) (t : Z) (ev : ConnEvent)
    (st : RedisStore) : RedisStore :=
  match ev with
  | Connect s => add_socket t user_id s st
  | Disconnect s => remove_socket t user_id s st
  end.

(** The sockets currently open (the local registry). *)
Definition open_after (ev : ConnEvent) (opens : gset string) : gset string :=
  match ev with
  | Connect s => {[s]} ∪ opens
  | Disconnect s => opens ∖ {[s]}
  end.

Fixpoint run (user_id : string) (tr : list (Z * ConnEvent))
    (st : RedisStore) (opens : gset string) : RedisStore * gset string :=
  match tr with
  | [] => (st, opens)
  | (t, ev) :: rest =>
      run user_id rest (apply_event user_id t ev st) (open_after ev opens)
  end.

(** The 24-hour key never lapses while a socket is open: every instant at
    which a socket is open (event instants and the final [now]) is at most
    86400 s after the most recent connect. *)
Fixpoint ttl_respected (tr : list (Z * ConnEvent)) (opens : gset string)
    (last_connect : Z) (now : Z) : Prop :=
  match tr with
  | [] => opens ≠ ∅ -> now <= last_connect + 86400
  | (t, ev) :: rest =>
      (opens ≠ ∅ -> t <= last_connect + 86400)
      /\ ttl_respected rest (open_after ev opens)
           (match ev with Connect _ => t | Disconnect _ => last_connect end) now
  end.

End Presence.

(* ------------------------------------------------------------------ *)
(** ** Notification channels ([publish_notification] and the pattern
    listener of [subscribe_all_notifications]) *)

Module PubSub.

(** [f"notification:user:{user_id}"] *)
Definition notification_channel (user_id : string) : string :=
  "notification:user:" ++ user_id.

(** Python [s.split(sep)] for a one-character separator. *)
Fixpoint split_on (sep : ascii) (s : string) : list string :=
  match s with
  | EmptyString => [""]
  | String c rest =>
      let parts := split_on sep rest in
      if Ascii.eqb c sep then "" :: parts
      else match parts with
           | p :: ps => String c p :: ps
           | [] => [String c ""]
           end
  end.

(** [user_id = channel.split(":")[-1]] ([split] never returns an empty
    list, so the default of [List.last] is never used). *)
Definition channel_user_id (channel : string) : string :=
  List.last (split_on ":"%char channel) "".

(** The id contains a colon. *)
Definition has_colon (s : string) : bool :=
  existsb (fun c => Ascii.eqb c ":"%char) (list_ascii_of_string s).

End PubSub.

(* ------------------------------------------------------------------ *)
(** ** Relay listener loop ([subscribe_user_notifications] and
    [subscribe_all_notifications] share it) *)

Module Relay.

(** What one [async for message in pubsub.listen()] pass does: it yields
    [received] messages and then raises a transient error, or it is
    cancelled. *)
Inductive ListenPass :=
| FailsAfter (received : nat)
| CancelledAfter (received : nat).

Inductive LogEvent :=
| Delivered                     (* callback invoked on a message *)
| Sleep (delay : Z)             (* await asyncio.sleep(delay) *)
| Resubscribe                   (* await pubsub.subscribe(channel) *)
| MaxRetriesReached.            (* logger.error("Max retries reached ...") *)

Definition max_retries : Z := 10.
Definition base_delay : Z := 1.

(** [listener()]: the [while retry_count < max_retries] loop, fed with
    the behaviour of successive [listen()] passes. *)
Fixpoint listener_loop (retry_count : Z) (passes : list ListenPass) : list LogEvent :=
  if Z.ltb retry_count max_retries then
    match passes with
    | [] => []
    | CancelledAfter n :: _ => repeat Delivered n
    | FailsAfter n :: rest =>
        let rc := (if Nat.eqb n 0 then retry_count else 0) + 1 in
        let delay := Z.min (base_delay * 2 ^ rc) 30 in
        repeat Delivered n ++ [Sleep delay; Resubscribe] ++ listener_loop rc rest
    end
  else [MaxRetriesReached].

Definition listener (passes : list ListenPass) : list LogEvent :=
  listener_loop 0 passes.

(** The delays slept, in order. *)
Definition delays (log : list LogEvent) : list Z :=
  omap (fun e => match e with Sleep d => Some d | _ => None end) log.

End Relay.

(* ------------------------------------------------------------------ *)
(** ** Store operations and auxiliary predicates *)

Module Ops.

(** Every operation of the services that writes the document store. *)
Inductive Op :=
| SendMessage (c s : string) (data : MessageCreate) (nid : string) (now : Z)
| MarkSeen (c u m : string)
| MessageDelivered (message_id : option string)
| CreateConversation (creator : string) (data : MessageService.ConversationCreate)
    (gen : nat -> string) (now : Z)
| AddParticipant (c u : string) (role : ParticipantRole) (nid : string) (now : Z)
| RemoveParticipant (c u : string) (now : Z).

Definition step (db : DB) (op : Op) : DB :=
  match op with
  | SendMessage c s data nid now => fst (MessageService.send_message db c s data nid now)
  | MarkSeen c u m => MessageService.mark_conversation_seen db c u m
  | MessageDelivered mid => MessageConsumer.handle_message_delivered db mid
  | CreateConversation cr data gen now =>
      fst (MessageService.create_conversation db cr data gen now)
  | AddParticipant c u role nid now =>
      fst (MessageService.add_participant db c u role nid now)
  | RemoveParticipant c u now => fst (MessageService.remove_participant db c u now)
  end.

End Ops.

(** Order of the delivery states: SENT < DELIVERED < SEEN. *)
Definition status_rank (s : MessageStatus) : nat :=
  match s with SENT => 0 | DELIVERED => 1 | SEEN => 2 end.

(** [cid] is a DIRECT conversation in which both [a] and [b] are active. *)
Definition direct_between (db : DB) (a b cid : string) : bool :=
  MessageService.is_participant db cid a && MessageService.is_participant db cid b
  && match MessageService.find_direct db cid with Some _ => true | None => false end.

(** Per-message shape of a step: old positions keep their id and move up
    in status, new positions hold freshly created messages. *)
Definition status_forward (db db' : DB) : Prop :=
  (length (messages db) <= length (messages db'))%nat
  /\ (forall i x, messages db !! i = Some x ->
        exists x', messages db' !! i = Some x' /\ msg_id x' = msg_id x
                   /\ (status_rank (msg_status x) <= status_rank (msg_status x'))%nat)
  /\ (forall i x', (length (messages db) <= i)%nat -> messages db' !! i = Some x' ->
        msg_status x' = SENT).

(** [p] is an active participant record of user [u] in conversation [c]. *)
Definition active_in (c u : string) (p : ConversationParticipant) : bool :=
  String.eqb (part_conversation_id p) c && String.eqb (part_user_id p) u && is_active p.

(** An error message the client sees is non-empty. *)
Definition error_shown (e : PyError) : Prop := Websocket.error_text e <> "".

(** Shape of the principal's key: absent when no socket is open,
    otherwise exactly the open sockets with the TTL of the last connect. *)
Definition presence_inv (u : string) (st : Presence.RedisStore) (opens : gset string)
    (last_connect : Z) : Prop :=
  (opens = ∅ -> st !! Presence.socket_key u = None)
  /\ (opens ≠ ∅ -> st !! Presence.socket_key u = Some (Presence.mkEntry opens (Some (last_connect + 86400)))).

(** Live members of a key, as SMEMBERS / SCARD see them. *)
Definition live_members (now : Z) (k : string) (st : Presence.RedisStore) : gset string :=
  match Presence.lookup_live now k st with Some e => Presence.members e | None => ∅ end.

(** Every participant record of conversation [c] is active. *)
Definition conv_active (c : string) (ps : list ConversationParticipant) : Prop :=
  forall p, In p ps -> part_conversation_id p = c -> is_active p = true.

(** Number of participant records of user [u] in conversation [c]. *)
Definition records_of (c u : string) (ps : list ConversationParticipant) : nat :=
  length (List.filter (fun p => String.eqb (part_conversation_id p) c
                                && String.eqb (part_user_id p) u) ps).

(** Every failing pass of [listen()] yielded at least one message. *)
Definition receives_before_failing (p : Relay.ListenPass) : Prop :=
  match p with Relay.FailsAfter n => (0 < n)%nat | Relay.CancelledAfter _ => True end.

(* ------------------------------------------------------------------ *)
(** ** Sample data *)

Module Sample.

(** A group conversation [c1] of alice, bob and carol; carol has left. *)
Definition conv_g : Conversation :=
  mkConversation "c1" GROUP (Some "team") None (Some "alice") 0 0 None None None.

Definition p_alice : ConversationParticipant :=
  mkParticipant "p1" "c1" "alice" ADMIN None 0 0 None.
Definition p_bob : ConversationParticipant :=
  mkParticipant "p2" "c1" "bob" MEMBER None 2 0 None.
Definition p_carol : ConversationParticipant :=
  mkParticipant "p3" "c1" "carol" MEMBER None 1 0 (Some 5).

Definition m1 : Message := mkMessage "m1" "c1" "alice" (Some "hi") TEXT [] SENT None 1.
Definition m2 : Message := mkMessage "m2" "c1" "bob" (Some "yo") TEXT [] DELIVERED None 2.
Definition m3 : Message := mkMessage "m3" "c1" "alice" (Some "later") TEXT [] SENT None 9.

Definition db : DB := mkDB [conv_g] [p_alice; p_bob; p_carol] [m1; m2; m3].

(** Two messages sent within the same instant. *)
Definition m4 : Message := mkMessage "m4" "c1" "alice" (Some "a") TEXT [] SENT None 7.
Definition m5 : Message := mkMessage "m5" "c1" "bob" (Some "b") TEXT [] SENT None 7.

Definition tie_db : DB := mkDB [conv_g] [p_alice; p_bob] [m4; m5].

Definition empty_db : DB := mkDB [] [] [].

Definition data : MessageCreate := mkMessageCreate (Some "hello") [] None.

(** Id generator of a [create_conversation] call. *)
Definition gen (n : nat) : string :=
  match n with O => "d1" | S O => "q1" | _ => "q2" end.

Definition gen' (n : nat) : string :=
  match n with O => "d2" | S O => "q3" | _ => "q4" end.

Definition send_frame : list (string * JVal) :=
  [("type", JStr "SEND_MESSAGE"); ("conversationId", JStr "c1");
   ("content", JStr "hello"); ("tempId", JStr "t1")].

Definition self_event : list (string * JVal) :=
  [("actor_id", JStr "alice"); ("user_id", JStr "alice"); ("post_id", JStr "x1")].

Definition trace : list (Z * Presence.ConnEvent) :=
  [(0, Presence.Connect "s1"); (10, Presence.Connect "s2"); (20, Presence.Disconnect "s1")].

End Sample.

(* ------------------------------------------------------------------ *)
(** * Properties *)

Section ListFacts.

Lemma lookup_map_std {A B} (f : A -> B) (l : list A) (i : nat) :
  List.map f l !! i = option_map f (l !! i).
Proof. revert i; induction l as [|x l IH]; intros [|i]; simpl; auto. Qed.

Lemma length_map_std {A B} (f : A -> B) (l : list A) :
  length (List.map f l) = length l.
Proof. induction l; simpl; auto. Qed.

Lemma find_some_lookup {A} (f : A -> bool) (l : list A) (x : A) :
  List.find f l = Some x -> f x = true /\ exists i, l !! i = Some x.
Proof.
  induction l as [|y l IH]; simpl; [discriminate|].
  destruct (f y) eqn:Hy.
  - intros [= <-]. split; [assumption|]. exists 0%nat. reflexivity.
  - intros H. destruct (IH H) as [Hf [i Hi]]. split; [assumption|].
    exists (S i). exact Hi.
Qed.

Lemma find_none_forall {A} (f : A -> bool) (l : list A) :
  List.find f l = None -> forall x, In x l -> f x = false.
Proof.
  induction l as [|y l IH]; simpl; [tauto|].
  destruct (f y) eqn:Hy; [discriminate|].
  intros H x [<-|Hin]; auto.
Qed.

End ListFacts.


Ltac bool_split :=
  repeat match goal with
  | H : (_ && _)%bool = true |- _ => apply andb_prop in H; destruct H
  | H : negb _ = true |- _ => apply negb_true_iff in H
  | H : String.eqb _ _ = true |- _ => apply String.eqb_eq in H
  end.

(** ** C1: sending increments the unread counter of the other active
    participants *)

(** C1. When the sender is an active participant, [send_message]
    succeeds; every participant record of the conversation that belongs to
    another user and has not left gets its [unread_count] raised by exactly
    one (only that field changes), and every record of the sender is left
    as it was. *)
Theorem send_message_increments_unread (db : DB) (c s : string)
    (data : MessageCreate) (nid : string) (now : Z) :
  MessageService.is_participant db c s = true ->
  exists db' m,
    MessageService.send_message db c s data nid now = (db', inr m)
    /\ length (participants db') = length (participants db)
    /\ (forall i p, participants db !! i = Some p ->
          part_conversation_id p = c -> part_user_id p <> s ->
          part_left_at p = None ->
          participants db' !! i = Some (inc_unread p)
          /\ part_unread_count (inc_unread p) = part_unread_count p + 1)
    /\ (forall i p, participants db !! i = Some p -> part_user_id p = s ->
          participants db' !! i = Some p).
Proof.
  intros Hp. unfold MessageService.send_message. rewrite Hp. simpl.
  eexists _, _. split; [reflexivity|]. simpl.
  split; [apply length_map_std|].
  split.
  - intros i p Hi Hc Hu Hl. rewrite lookup_map_std, Hi. simpl.
    unfold MessageService.unread_target, is_active.
    rewrite Hc, Hl, String.eqb_refl.
    destruct (String.eqb_spec (part_user_id p) s) as [E|_]; [contradiction|].
    simpl. split; reflexivity.
  - intros i p Hi Hu. rewrite lookup_map_std, Hi. simpl.
    unfold MessageService.unread_target. rewrite Hu, String.eqb_refl.
    rewrite andb_false_r. simpl. reflexivity.
Qed.

(** ** C10: a non-participant sender changes nothing *)

(** C10. When the sender has no active participant record in the
    conversation, [send_message] raises
    [ValueError("User is not a participant in this conversation")] and
    returns the store unchanged: no message, no counter, no preview
    update. *)
Theorem send_message_non_participant_unchanged (db : DB) (c s : string)
    (data : MessageCreate) (nid : string) (now : Z) :
  MessageService.is_participant db c s = false ->
  MessageService.send_message db c s data nid now
  = (db, inl (ValueError "User is not a participant in this conversation")).
Proof. intros Hp. unfold MessageService.send_message. rewrite Hp. reflexivity. Qed.

Lemma find_save_by {A} (f : A -> bool) (id : A -> string) (l : list A) (p p' : A) :
  List.find f l = Some p -> id p' = id p -> f p' = true ->
  List.find f (save_by id p' l) = Some p'.
Proof.
  intros Hfind Hid Hf. unfold save_by.
  induction l as [|y l IH]; simpl in *; [discriminate|].
  destruct (String.eqb_spec (id y) (id p')) as [E|NE]; simpl.
  - rewrite Hf. reflexivity.
  - destruct (f y) eqn:Hy.
    + injection Hfind as <-. congruence.
    + apply IH. exact Hfind.
Qed.

Lemma lookup_save_by_other {A} (id : A -> string) (l : list A) (d x : A) (i : nat) :
  l !! i = Some x -> id x <> id d -> save_by id d l !! i = Some x.
Proof.
  intros Hi Hne. unfold save_by. rewrite lookup_map_std, Hi. simpl.
  destruct (String.eqb_spec (id x) (id d)); [contradiction|reflexivity].
Qed.

(** ** C2: marking seen resets only the marking participant *)

(** C2. If [(conversation_id, user_id)] has a participant record [p]
    (the first one [find_one] returns), [mark_conversation_seen] leaves
    that participant with [unread_count = 0] and
    [last_seen_message_id = message_id] (all other fields as they were),
    and every other participant record is unchanged. *)
Theorem mark_seen_resets_marker_only (db : DB) (c u m : string)
    (p : ConversationParticipant) :
  MessageService.find_participant c u (participants db) = Some p ->
  let db' := MessageService.mark_conversation_seen db c u m in
  MessageService.find_participant c u (participants db') = Some (set_part_seen m p)
  /\ part_unread_count (set_part_seen m p) = 0
  /\ part_last_seen_message_id (set_part_seen m p) = Some m
  /\ length (participants db') = length (participants db)
  /\ (forall i x, participants db !! i = Some x -> part_id x <> part_id p ->
        participants db' !! i = Some x).
Proof.
  intros Hp db'. subst db'.
  unfold MessageService.mark_conversation_seen. rewrite Hp. simpl.
  pose proof (find_some_lookup _ _ _ Hp) as [Hf _]. bool_split.
  split; [|split; [reflexivity|split; [reflexivity|split]]].
  - apply (find_save_by _ _ _ p); [exact Hp|reflexivity|].
    simpl. subst. rewrite !String.eqb_refl. reflexivity.
  - apply length_map_std.
  - intros i x Hi Hne. apply lookup_save_by_other; [exact Hi|exact Hne].
Qed.

(** ** C9: mark-seen marks every message of the others, whatever the id *)

(** C9. As soon as [(conversation_id, user_id)] has a participant record,
    active or not (no condition on [left_at]), [mark_conversation_seen]
    leaves every message of the conversation sent by someone else with
    status [SEEN], including messages newer than [message_id]; the
    resulting messages do not depend on [message_id] at all. *)
Theorem mark_seen_marks_all_foreign_messages (db : DB) (c u m : string)
    (p : ConversationParticipant) :
  MessageService.find_participant c u (participants db) = Some p ->
  (forall i x, messages db !! i = Some x -> msg_conversation_id x = c ->
     msg_sender_id x <> u ->
     exists x', messages (MessageService.mark_conversation_seen db c u m) !! i = Some x'
                /\ msg_status x' = SEEN /\ msg_id x' = msg_id x
                /\ msg_created_at x' = msg_created_at x)
  /\ (forall m', messages (MessageService.mark_conversation_seen db c u m')
                 = messages (MessageService.mark_conversation_seen db c u m)).
Proof.
  intros Hp. unfold MessageService.mark_conversation_seen. rewrite Hp. simpl.
  split; [|reflexivity].
  intros i x Hi Hc Hs. rewrite lookup_map_std, Hi. simpl.
  unfold MessageService.seen_target.
  rewrite Hc, String.eqb_refl.
  destruct (String.eqb_spec (msg_sender_id x) u) as [E|_]; [contradiction|].
  destruct (msg_status x) eqn:Hst; simpl; eexists; (split; [reflexivity|]);
    simpl; auto.
Qed.

(** ** C6: message status never moves backwards *)

Lemma add_participant_messages db c u r nid now :
  messages (fst (MessageService.add_participant db c u r nid now)) = messages db.
Proof.
  unfold MessageService.add_participant.
  destruct (MessageService.find_participant _ _ _) as [e|]; simpl; [|reflexivity].
  destruct (part_left_at e); reflexivity.
Qed.

Lemma add_members_messages db c us gen k now :
  messages (MessageService.add_members db c us gen k now) = messages db.
Proof.
  revert db k; induction us as [|u us IH]; intros db k; simpl; [reflexivity|].
  rewrite IH. apply add_participant_messages.
Qed.

Lemma create_conversation_messages db cr data gen now :
  messages (fst (MessageService.create_conversation db cr data gen now)) = messages db.
Proof.
  assert (Hn : messages (fst (MessageService.create_conversation_new db cr data gen now))
               = messages db).
  { unfold MessageService.create_conversation_new. simpl.
    rewrite add_members_messages, add_participant_messages. reflexivity. }
  unfold MessageService.create_conversation.
  destruct (MessageService.cc_type data); [|exact Hn].
  destruct (MessageService.cc_participant_ids data) as [|o [|]]; try reflexivity.
  destruct (MessageService.get_direct_conversation _ _ _); [reflexivity|exact Hn].
Qed.


Lemma status_forward_same db db' :
  messages db' = messages db -> status_forward db db'.
Proof.
  intros E. unfold status_forward. rewrite E. split; [lia|split].
  - intros i x Hi. exists x. auto.
  - intros i x' Hle Hi. apply lookup_lt_Some in Hi. lia.
Qed.

(** C6. Every message is created with status [SENT], and no operation
    that writes the store (sending, marking seen, the message-delivered
    handler, conversation and participant management) moves the status of
    an existing message backwards along SENT -> DELIVERED -> SEEN; message
    documents are never removed or reordered.  Message ids are unique, as
    MongoDB's [_id] is. *)
Theorem message_status_monotone (db : DB) (op : Ops.Op) :
  NoDup (map msg_id (messages db)) ->
  status_forward db (Ops.step db op).
Proof.
  intros Hnd. destruct op as [c s data nid now|c u m|mid|cr data gen now
                             |c u r nid now|c u now]; simpl.
  - unfold MessageService.send_message.
    destruct (MessageService.is_participant db c s); simpl;
      [|apply status_forward_same; reflexivity].
    unfold status_forward; simpl. rewrite length_app; simpl. split; [lia|split].
    + intros i x Hi. exists x. rewrite lookup_app_l by (eapply lookup_lt_Some; eauto).
      auto.
    + intros i x' Hle Hi. rewrite lookup_app_r in Hi by lia.
      destruct (i - length (messages db))%nat as [|k]; simpl in Hi;
        [injection Hi as <-; reflexivity|rewrite lookup_nil in Hi; discriminate].
  - unfold MessageService.mark_conversation_seen.
    destruct (MessageService.find_participant _ _ _); simpl;
      [|apply status_forward_same; reflexivity].
    unfold status_forward; simpl. rewrite length_map_std. split; [lia|split].
    + intros i x Hi. rewrite lookup_map_std, Hi. simpl.
      destruct (MessageService.seen_target c u x); eexists; (split; [reflexivity|]);
        simpl; split; auto; destruct (msg_status x); simpl; lia.
    + intros i x' Hle Hi. apply lookup_lt_Some in Hi. rewrite length_map_std in Hi. lia.
  - unfold MessageConsumer.handle_message_delivered.
    destruct mid as [mid|]; [|apply status_forward_same; reflexivity].
    destruct (String.eqb mid ""); [apply status_forward_same; reflexivity|].
    destruct (List.find _ (messages db)) as [msg|] eqn:Hf;
      [|apply status_forward_same; reflexivity].
    destruct (MessageStatus_eqb (msg_status msg) SENT) eqn:Hs;
      [|apply status_forward_same; reflexivity].
    apply find_some_lookup in Hf as [_ [j Hj]].
    unfold status_forward; simpl. unfold save_by. rewrite length_map_std.
    split; [lia|split].
    + intros i x Hi. rewrite lookup_map_std, Hi. simpl.
      destruct (String.eqb_spec (msg_id x) (msg_id msg)) as [E|NE].
      * assert (i = j) as ->.
        { apply (NoDup_lookup (map msg_id (messages db)) i j (msg_id x)); [exact Hnd|..].
          - rewrite lookup_map_std, Hi. reflexivity.
          - rewrite lookup_map_std, Hj. simpl. rewrite E. reflexivity. }
        rewrite Hj in Hi. injection Hi as <-.
        eexists; split; [reflexivity|]. simpl. split; [reflexivity|].
        destruct (msg_status msg); simpl in *; try discriminate; lia.
      * eexists; split; [reflexivity|]. auto.
    + intros i x' Hle Hi. apply lookup_lt_Some in Hi. rewrite length_map_std in Hi. lia.
  - apply status_forward_same. apply create_conversation_messages.
  - apply status_forward_same. apply add_participant_messages.
  - apply status_forward_same. unfold MessageService.remove_participant.
    destruct (List.find _ _); reflexivity.
Qed.

(** ** C3: creating a DIRECT conversation twice *)

Lemma find_isSome_existsb {A} (f : A -> bool) (l : list A) :
  match List.find f l with Some _ => true | None => false end = existsb f l.
Proof. induction l as [|x l IH]; simpl; [reflexivity|]. destruct (f x); auto. Qed.

Lemma find_app_std {A} (f : A -> bool) (l1 l2 : list A) :
  List.find f (l1 ++ l2) =
  match List.find f l1 with Some x => Some x | None => List.find f l2 end.
Proof. induction l1 as [|x l1 IH]; simpl; [reflexivity|]. destruct (f x); auto. Qed.


Lemma is_participant_existsb db c u :
  MessageService.is_participant db c u = existsb (active_in c u) (participants db).
Proof. unfold MessageService.is_participant. apply find_isSome_existsb. Qed.

Lemma in_active_conv_ids db u cid :
  In cid (MessageService.active_conv_ids db u) <->
  MessageService.is_participant db cid u = true.
Proof.
  unfold MessageService.active_conv_ids. rewrite is_participant_existsb.
  rewrite <- list_elem_of_In, elem_of_remove_dups, list_elem_of_In.
  rewrite in_map_iff, existsb_exists. split.
  - intros [p [<- Hin]]. apply filter_In in Hin as [Hin Hp]. exists p.
    split; [exact Hin|]. unfold active_in. bool_split.
    rewrite String.eqb_refl, H. simpl. subst. rewrite String.eqb_refl. exact H0.
  - intros [p [Hin Hp]]. unfold active_in in Hp. bool_split. exists p.
    split; [assumption|]. apply filter_In. split; [assumption|].
    subst. rewrite String.eqb_refl. simpl. assumption.
Qed.

Lemma find_direct_id db cid cv :
  MessageService.find_direct db cid = Some cv -> conv_id cv = cid.
Proof.
  unfold MessageService.find_direct. intros H.
  apply find_some_lookup in H as [Hf _]. bool_split. assumption.
Qed.

Lemma first_direct_some db u2 ids cv :
  MessageService.first_direct db u2 ids = Some cv ->
  exists cid, In cid ids /\ MessageService.is_participant db cid u2 = true
              /\ MessageService.find_direct db cid = Some cv.
Proof.
  induction ids as [|cid ids IH]; simpl; [discriminate|].
  destruct (MessageService.is_participant db cid u2) eqn:Hp.
  - destruct (MessageService.find_direct db cid) eqn:Hd.
    + intros [= <-]. exists cid. auto.
    + intros H. destruct (IH H) as [c' (? & ? & ?)]. exists c'. auto.
  - intros H. destruct (IH H) as [c' (? & ? & ?)]. exists c'. auto.
Qed.

Lemma first_direct_none db u2 ids :
  MessageService.first_direct db u2 ids = None ->
  forall cid, In cid ids -> MessageService.is_participant db cid u2 = true ->
              MessageService.find_direct db cid = None.
Proof.
  induction ids as [|c ids IH]; simpl; [tauto|].
  destruct (MessageService.is_participant db c u2) eqn:Hp.
  - destruct (MessageService.find_direct db c) eqn:Hd; [discriminate|].
    intros H cid [<-|Hin] Hq; auto.
  - intros H cid [<-|Hin] Hq; [congruence|auto].
Qed.

Lemma get_direct_sound db a b cv :
  MessageService.get_direct_conversation db a b = Some cv ->
  direct_between db a b (conv_id cv) = true
  /\ MessageService.find_direct db (conv_id cv) = Some cv.
Proof.
  unfold MessageService.get_direct_conversation. intros H.
  apply first_direct_some in H as [cid (Hin & Hb & Hd)].
  pose proof (find_direct_id _ _ _ Hd) as ->.
  apply in_active_conv_ids in Hin.
  unfold direct_between. rewrite Hin, Hb, Hd. auto.
Qed.

Lemma get_direct_complete db a b cid :
  direct_between db a b cid = true ->
  exists cv, MessageService.get_direct_conversation db a b = Some cv.
Proof.
  unfold direct_between. intros H. bool_split.
  destruct (MessageService.get_direct_conversation db a b) eqn:G; [eauto|].
  exfalso. unfold MessageService.get_direct_conversation in G.
  apply in_active_conv_ids in H.
  pose proof (first_direct_none _ _ _ G cid H H1) as Hn. rewrite Hn in H0.
  discriminate.
Qed.

Lemma direct_between_sym db a b cid :
  direct_between db a b cid = direct_between db b a cid.
Proof.
  unfold direct_between.
  destruct (MessageService.is_participant db cid a), (MessageService.is_participant db cid b);
    reflexivity.
Qed.

Lemma find_none_intro {A} (f : A -> bool) (l : list A) :
  (forall x, In x l -> f x = false) -> List.find f l = None.
Proof.
  induction l as [|y l IH]; simpl; intros H; [reflexivity|].
  rewrite (H y (or_introl eq_refl)). apply IH. auto.
Qed.

Section FreshDirect.

Variables (db : DB) (a b : string) (name avatar : option string)
  (gen : nat -> string) (now : Z).
Hypothesis fresh_conv : forall cv, In cv (conversations db) -> conv_id cv <> gen 0%nat.
Hypothesis fresh_parts :
  forall p, In p (participants db) -> part_conversation_id p <> gen 0%nat.

Lemma fresh_find_participant u :
  MessageService.find_participant (gen 0%nat) u (participants db) = None.
Proof.
  apply find_none_intro. intros p Hin.
  destruct (String.eqb_spec (part_conversation_id p) (gen 0%nat)) as [E|_];
    [|reflexivity].
  exfalso. exact (fresh_parts p Hin E).
Qed.

Lemma create_direct_new_shape :
  let db3 := fst (MessageService.create_conversation_new db a
                    (MessageService.mkConversationCreate DIRECT [b] name avatar) gen now) in
  conversations db3
  = conversations db ++ [mkConversation (gen 0%nat) DIRECT None avatar None now now
                           None None None]
  /\ participants db3
     = participants db
       ++ [mkParticipant (gen 1%nat) (gen 0%nat) a MEMBER None 0 now None]
       ++ (if String.eqb a b then []
           else [mkParticipant (gen 2%nat) (gen 0%nat) b MEMBER None 0 now None])
  /\ snd (MessageService.create_conversation_new db a
            (MessageService.mkConversationCreate DIRECT [b] name avatar) gen now)
     = inr (mkConversation (gen 0%nat) DIRECT None avatar None now now None None None).
Proof.
  simpl. unfold MessageService.add_participant. simpl.
  rewrite fresh_find_participant. simpl.
  unfold MessageService.find_participant. rewrite find_app_std.
  fold (MessageService.find_participant (gen 0%nat) b (participants db)).
  rewrite fresh_find_participant. simpl.
  rewrite String.eqb_refl. simpl.
  destruct (String.eqb_spec a b) as [<-|NE]; simpl; repeat split;
    rewrite <- ?app_assoc; simpl; auto.
Qed.

End FreshDirect.

Lemma direct_unique_pick db a b cid cv cv' :
  (forall x y, direct_between db a b x = true -> direct_between db a b y = true -> x = y) ->
  direct_between db a b cid = true ->
  MessageService.find_direct db cid = Some cv ->
  MessageService.get_direct_conversation db a b = Some cv' -> cv' = cv.
Proof.
  intros Hu Hd Hf G. apply get_direct_sound in G as [Hd' Hf'].
  rewrite (Hu _ _ Hd' Hd) in Hf'. congruence.
Qed.

(** C3. Creating a DIRECT conversation between [a] and [b] and then again
    with the roles swapped ([b] creating with [a]) or in the same order
    returns the same conversation both times, and the second call writes
    nothing.  Assumptions: at most one DIRECT conversation has both [a]
    and [b] as active participants (the service never creates a second
    one, and participants cannot leave DIRECT conversations through the
    routes), and the uuid drawn for a new conversation is fresh. *)
Theorem direct_conversation_create_idempotent (db : DB) (a b : string)
    (n1 av1 n2 av2 : option string) (gen1 gen2 : nat -> string) (now1 now2 : Z)
    (swap : bool) :
  (forall x y, direct_between db a b x = true -> direct_between db a b y = true ->
               x = y) ->
  (forall cv, In cv (conversations db) -> conv_id cv <> gen1 0%nat) ->
  (forall p, In p (participants db) -> part_conversation_id p <> gen1 0%nat) ->
  exists db1 c1,
    MessageService.create_conversation db a
      (MessageService.mkConversationCreate DIRECT [b] n1 av1) gen1 now1 = (db1, inr c1)
    /\ MessageService.create_conversation db1 (if swap then b else a)
         (MessageService.mkConversationCreate DIRECT [if swap then a else b] n2 av2)
         gen2 now2 = (db1, inr c1).
Proof.
  intros Hu Hfc Hfp.
  assert (Hsw : forall d cid, direct_between d (if swap then b else a)
                                (if swap then a else b) cid = direct_between d a b cid).
  { intros d cid. destruct swap; [apply direct_between_sym|reflexivity]. }
  unfold MessageService.create_conversation at 1. simpl.
  destruct (MessageService.get_direct_conversation db a b) as [e|] eqn:G.
  - exists db, e. split; [reflexivity|].
    unfold MessageService.create_conversation. simpl.
    apply get_direct_sound in G as [Hd Hf].
    rewrite <- Hsw in Hd.
    destruct (get_direct_complete _ _ _ _ Hd) as [e' G'].
    rewrite G'. do 2 f_equal.
    apply get_direct_sound in G' as [Hd' Hf'].
    rewrite Hsw in Hd, Hd'. rewrite (Hu _ _ Hd' Hd) in Hf'. congruence.
  - destruct (create_direct_new_shape db a b n1 av1 gen1 now1 Hfp)
      as (Hc & Hp & Hr).
    set (X := gen1 0%nat) in *.
    set (cX := mkConversation X DIRECT None av1 None now1 now1 None None None) in *.
    destruct (MessageService.create_conversation_new db a _ gen1 now1) as [db1 r1].
    simpl in Hc, Hp, Hr. subst r1.
    exists db1, cX. split; [reflexivity|].
    unfold MessageService.create_conversation. simpl.
    (* the new conversation is a DIRECT one shared by a and b *)
    assert (HfX : MessageService.find_direct db1 X = Some cX).
    { unfold MessageService.find_direct. rewrite Hc, find_app_std.
      rewrite find_none_intro.
      - simpl. rewrite String.eqb_refl. reflexivity.
      - intros cv Hin. destruct (String.eqb_spec (conv_id cv) X) as [E|_];
          [exfalso; exact (Hfc cv Hin E)|reflexivity]. }
    assert (HpX : forall u, u = a \/ u = b -> MessageService.is_participant db1 X u = true).
    { intros u Hu'. rewrite is_participant_existsb, Hp, !existsb_app.
      apply orb_true_intro. right. unfold active_in. simpl.
      rewrite String.eqb_refl. simpl.
      destruct Hu' as [ -> | -> ]; [rewrite String.eqb_refl; reflexivity|].
      destruct (String.eqb_spec a b) as [ -> | NE]; simpl;
        rewrite ?String.eqb_refl; reflexivity. }
    (* any other conversation is as it was in [db] *)
    assert (Hold : forall cid u, cid <> X ->
              MessageService.is_participant db1 cid u = MessageService.is_participant db cid u
              /\ MessageService.find_direct db1 cid = MessageService.find_direct db cid).
    { intros cid u Hne. split.
      - rewrite !is_participant_existsb, Hp, !existsb_app.
        assert (HX : String.eqb X cid = false) by (apply String.eqb_neq; congruence).
        destruct (String.eqb a b); simpl; unfold active_in at 2 3; simpl;
          rewrite ?HX; simpl; rewrite ?orb_false_r; reflexivity.
      - unfold MessageService.find_direct. rewrite Hc, find_app_std. simpl.
        destruct (String.eqb_spec X cid) as [E|_]; [congruence|].
        destruct (List.find _ (conversations db)); reflexivity. }
    assert (HdX : direct_between db1 a b X = true).
    { unfold direct_between. rewrite HfX, !HpX; auto. }
    rewrite <- Hsw in HdX.
    destruct (get_direct_complete _ _ _ _ HdX) as [e' G'].
    rewrite G'. do 2 f_equal.
    apply get_direct_sound in G' as [Hd' Hf'].
    rewrite Hsw in Hd'.
    destruct (String.eqb_spec (conv_id e') X) as [E|NE].
    + rewrite E in Hf'. congruence.
    + exfalso.
      assert (Hdb : direct_between db a b (conv_id e') = true).
      { unfold direct_between in *. destruct (Hold (conv_id e') a NE) as [Ha Hf1].
        destruct (Hold (conv_id e') b NE) as [Hb _].
        rewrite <- Ha, <- Hb, <- Hf1. exact Hd'. }
      destruct (get_direct_complete _ _ _ _ Hdb) as [e'' G''].
      congruence.
Qed.

(** ** C5: no notification for one's own action *)

(** C5. For every event the notification consumer processes, whatever its
    routing key, when its [actor_id] equals (Python [==]) its recipient
    [user_id], no [Notification] is inserted and nothing is published. *)
Theorem self_action_never_notified (st : NotificationConsumer.NState)
    (rk : string) (kvs : list (string * JVal)) (users : list (string * string))
    (is_online : string -> bool) (nid : string) :
  py_eq (jget kvs "actor_id") (jget kvs "user_id") = true ->
  NotificationConsumer.process_message st rk (NotificationConsumer.Object kvs)
    users is_online nid = st.
Proof.
  intros Heq. unfold NotificationConsumer.process_message.
  destruct (NotificationConsumer.ROUTING_KEY_TO_TYPE rk); [|reflexivity].
  rewrite Heq. destruct (_ || _); reflexivity.
Qed.

(** ** C8: one reply frame per SEND_MESSAGE *)


Lemma build_attachments_error xs e :
  Websocket.build_attachments xs = inl e ->
  e = ValueError "validation error for MediaAttachment".
Proof.
  induction xs as [|x xs IH]; simpl; [discriminate|].
  destruct x;
    try (destruct (Websocket.build_attachments xs); [intros [= <-]; auto|discriminate]).
  destruct (Websocket.media_attachment_of kvs) eqn:Hm.
  - unfold Websocket.media_attachment_of in Hm.
    intros [= <-]. repeat (destruct (jget_opt _ _) as [[]|] in Hm; try discriminate);
      congruence.
  - destruct (Websocket.build_attachments xs); [intros [= <-]; auto|discriminate].
Qed.

Lemma send_message_try_result db u kvs nid now db' r :
  Websocket.send_message_try db u kvs nid now = (db', r) ->
  match r with
  | inl e => error_shown e
  | inr (_, m) =>
      msg_id m = nid /\ In m (messages db')
      /\ exists c, jget kvs "conversationId" = JStr c
                   /\ MessageService.is_participant db c u = true
  end.
Proof.
  unfold Websocket.send_message_try.
  destruct (Websocket.iter_media _) as [e|xs] eqn:Hi.
  { intros [= <- <-]. unfold error_shown.
    destruct (match jget_opt kvs "media" with Some v => v | None => JList [] end);
      simpl in Hi; try discriminate; injection Hi as <-; simpl; discriminate. }
  destruct (Websocket.build_attachments xs) as [e|items] eqn:Hb.
  { intros [= <- <-]. rewrite (build_attachments_error _ _ Hb). discriminate. }
  destruct (Websocket.make_message_create _ _ _) as [e|data] eqn:Hm.
  { intros [= <- <-]. unfold Websocket.make_message_create in Hm.
    destruct (negb _); [injection Hm as <-; discriminate|].
    destruct (NotificationConsumer.as_opt_str (jget kvs "content")),
      (NotificationConsumer.as_opt_str (jget kvs "replyToMessageId"));
      try (injection Hm as <-; discriminate).
    destruct (_ && _); [injection Hm as <-|]; discriminate. }
  destruct (jget kvs "conversationId") as [| | | c | |] eqn:Hc; simpl;
    try (intros [= <- <-]; discriminate).
  unfold MessageService.send_message.
  destruct (MessageService.is_participant db c u) eqn:Hp; simpl;
    [|intros [= <- <-]; discriminate].
  intros [= <- <-]. simpl. split; [reflexivity|split].
  - apply in_or_app. right. left. reflexivity.
  - exists c. auto.
Qed.

(** C8. For every inbound frame of type [SEND_MESSAGE], the handler
    returns normally (no exception reaches the connection loop, which
    keeps the socket open) after sending exactly one frame: either a
    [MESSAGE_ACK] echoing the frame's [tempId] with the id of the message
    it stored (possible only when the sender is an active participant of
    the conversation named by [conversationId]), or an [ERROR] frame with
    a non-empty message. *)
Theorem send_message_frame_single_reply (db : DB) (u : string)
    (kvs : list (string * JVal)) (nid : string) (now : Z) :
  jget kvs "type" = JStr "SEND_MESSAGE" ->
  exists db' evs f,
    Websocket.handle_client_message db u kvs nid now = Websocket.Returned db' evs [f]
    /\ ((exists m, f = Websocket.FrameAck (jget kvs "tempId") (msg_id m) "SENT"
                   /\ msg_id m = nid /\ In m (messages db')
                   /\ exists c, jget kvs "conversationId" = JStr c
                                /\ MessageService.is_participant db c u = true)
        \/ (exists t, f = Websocket.FrameError t /\ t <> "")).
Proof.
  intros Ht. unfold Websocket.handle_client_message. rewrite Ht.
  destruct (_ || _).
  - do 3 eexists. split; [reflexivity|]. right. eexists. split; [reflexivity|].
    discriminate.
  - destruct (Websocket.send_message_try db u kvs nid now) as [db' r] eqn:Hs.
    apply send_message_try_result in Hs.
    destruct r as [e|[ev m]].
    + do 3 eexists. split; [reflexivity|]. right. eexists. split; [reflexivity|].
      exact Hs.
    + do 3 eexists. split; [reflexivity|]. left. exists m. split; [reflexivity|].
      exact Hs.
Qed.

(** ** C4: presence follows the open sockets *)

Section PresenceFacts.

Variable u : string.


Lemma size_zero_empty (X : gset string) : size X = 0%nat -> X = ∅.
Proof. intros H. apply leibniz_equiv. apply size_empty_iff. exact H. Qed.

Lemma lookup_live_insert_eq now k e (st : Presence.RedisStore) :
  Presence.lookup_live now k (<[k := e]> st)
  = if Presence.live now e then Some e else None.
Proof. unfold Presence.lookup_live. rewrite lookup_insert_eq. reflexivity. Qed.

Lemma lookup_live_delete_eq now k (st : Presence.RedisStore) :
  Presence.lookup_live now k (delete k st) = None.
Proof. unfold Presence.lookup_live. rewrite lookup_delete_eq. reflexivity. Qed.

Lemma lookup_live_absent now k (st : Presence.RedisStore) :
  st !! k = None -> Presence.lookup_live now k st = None.
Proof. unfold Presence.lookup_live. intros ->. reflexivity. Qed.

Lemma lookup_live_present now k (st : Presence.RedisStore) e :
  st !! k = Some e -> Presence.live now e = true -> Presence.lookup_live now k st = Some e.
Proof. unfold Presence.lookup_live. intros -> ->. reflexivity. Qed.

Lemma live_until now ms x : now <= x -> Presence.live now (Presence.mkEntry ms (Some x)) = true.
Proof. intros H. unfold Presence.live. simpl. apply bool_decide_eq_true. exact H. Qed.

Lemma live_forever now ms : Presence.live now (Presence.mkEntry ms None) = true.
Proof. reflexivity. Qed.

Lemma presence_inv_step st opens last t ev :
  presence_inv u st opens last ->
  (opens ≠ ∅ -> t <= last + 86400) ->
  presence_inv u (Presence.apply_event u t ev st) (Presence.open_after ev opens)
    (match ev with Presence.Connect _ => t | Presence.Disconnect _ => last end).
Proof.
  intros [Hnone Hsome] Hlive. unfold presence_inv.
  destruct ev as [s|s]; simpl.
  - (* connect *)
    assert (Hne : {[s]} ∪ opens ≠ ∅) by set_solver.
    split; [intros E; contradiction|intros _].
    unfold Presence.add_socket, Presence.expire, Presence.sadd.
    destruct (decide (opens = ∅)) as [E|NE].
    + rewrite (lookup_live_absent _ _ _ (Hnone E)).
      rewrite lookup_live_insert_eq, live_forever, insert_insert_eq, lookup_insert_eq.
      subst opens. rewrite union_empty_r_L. reflexivity.
    + rewrite (lookup_live_present _ _ _ _ (Hsome NE)) by (apply live_until, Hlive, NE).
      simpl. rewrite lookup_live_insert_eq, live_until by (apply Hlive, NE).
      rewrite insert_insert_eq, lookup_insert_eq. reflexivity.
  - (* disconnect *)
    unfold Presence.remove_socket, Presence.srem, Presence.scard.
    destruct (decide (opens = ∅)) as [E|NE].
    + rewrite (lookup_live_absent _ _ _ (Hnone E)), lookup_live_delete_eq. simpl.
      assert (opens ∖ {[s]} = ∅) as -> by (subst; apply empty_difference_L).
      split; [intros _|intros F; contradiction].
      apply lookup_delete_eq.
    + rewrite (lookup_live_present _ _ _ _ (Hsome NE)) by (apply live_until, Hlive, NE).
      simpl.
      destruct (decide (opens ∖ {[s]} = ∅)) as [E|NE'].
      * rewrite lookup_live_delete_eq. simpl. rewrite E.
        split; [intros _|intros F; contradiction]. apply lookup_delete_eq.
      * rewrite lookup_live_insert_eq, live_until by (apply Hlive, NE). simpl.
        destruct (Nat.eqb_spec (size (opens ∖ {[s]})) 0) as [Z0|_].
        { exfalso. apply NE'. apply size_zero_empty. exact Z0. }
        split; [intros F; contradiction|intros _]. apply lookup_insert_eq.
Qed.

Lemma presence_run_inv tr st opens last now :
  presence_inv u st opens last ->
  Presence.ttl_respected tr opens last now ->
  exists last', presence_inv u (fst (Presence.run u tr st opens))
                  (snd (Presence.run u tr st opens)) last'
                /\ (snd (Presence.run u tr st opens) ≠ ∅ -> now <= last' + 86400).
Proof.
  revert st opens last. induction tr as [|[t ev] tr IH]; intros st opens last Hinv Httl.
  - simpl in *. exists last. auto.
  - simpl in Httl. destruct Httl as [Ht Hrest]. simpl.
    eapply IH; [|exact Hrest]. apply presence_inv_step; assumption.
Qed.

Lemma presence_query st opens last now :
  presence_inv u st opens last -> (opens ≠ ∅ -> now <= last + 86400) ->
  (Presence.is_user_online now u st = true <-> opens ≠ ∅).
Proof.
  intros [Hnone Hsome] Hlive.
  unfold Presence.is_user_online, Presence.scard, Presence.lookup_live.
  destruct (decide (opens = ∅)) as [E|NE].
  - rewrite (Hnone E). simpl. split; [discriminate|contradiction].
  - rewrite (Hsome NE). simpl. unfold Presence.live. simpl.
    rewrite bool_decide_eq_true_2 by (apply Hlive; exact NE).
    split; [intros _; exact NE|intros _]. simpl.
    apply Nat.ltb_lt. destruct (size opens) eqn:Hs; [|lia].
    exfalso. apply NE. apply size_zero_empty. exact Hs.
Qed.

End PresenceFacts.


Lemma live_later (now t : Z) (e : Presence.SetEntry) :
  now <= t -> Presence.live t e = true -> Presence.live now e = true.
Proof.
  unfold Presence.live. destruct (Presence.expire_at e); [|auto].
  intros Hle H. apply bool_decide_eq_true in H. apply bool_decide_eq_true. lia.
Qed.

Lemma lookup_live_some_inv now k (st : Presence.RedisStore) e :
  Presence.lookup_live now k st = Some e ->
  st !! k = Some e /\ Presence.live now e = true.
Proof.
  unfold Presence.lookup_live. destruct (st !! k) as [e0|]; [|discriminate].
  destruct (Presence.live now e0) eqn:H; [|discriminate]. intros [= ->]. auto.
Qed.

Lemma lookup_live_none_later now t k (st : Presence.RedisStore) :
  now <= t -> Presence.lookup_live now k st = None -> Presence.lookup_live t k st = None.
Proof.
  unfold Presence.lookup_live. intros Hle.
  destruct (st !! k) as [e0|]; [|reflexivity].
  destruct (Presence.live now e0) eqn:Hn; [discriminate|intros _].
  destruct (Presence.live t e0) eqn:Ht; [|reflexivity].
  rewrite (live_later now t e0 Hle Ht) in Hn. discriminate.
Qed.

(** Shape of [remove_socket] when the socket is not a live member: the
    store is untouched, or the key is dropped and had no live member. *)
Lemma remove_socket_absent_shape (now : Z) (u s : string) (st : Presence.RedisStore) :
  s ∉ live_members now (Presence.socket_key u) st ->
  Presence.remove_socket now u s st = st
  \/ (Presence.remove_socket now u s st = delete (Presence.socket_key u) st
      /\ forall t, now <= t -> live_members t (Presence.socket_key u) st = ∅).
Proof.
  unfold Presence.remove_socket, Presence.srem, Presence.scard, live_members.
  set (key := Presence.socket_key u). cbv zeta. intros Habs.
  destruct (Presence.lookup_live now key st) as [e|] eqn:Hl.
  - destruct (lookup_live_some_inv _ _ _ _ Hl) as [Hst Hlv].
    destruct (decide (Presence.members e ∖ {[s]} = ∅)) as [E|NE].
    + rewrite lookup_live_delete_eq. simpl. right. split; [apply delete_delete_eq|].
      intros t _. unfold Presence.lookup_live. rewrite Hst.
      destruct (Presence.live t e); [set_solver|reflexivity].
    + assert (Hm : Presence.members e ∖ {[s]} = Presence.members e) by set_solver.
      rewrite Hm. rewrite lookup_live_insert_eq.
      destruct e as [ms ex]. simpl in *. rewrite Hlv. cbn [Presence.members].
      destruct (Nat.eqb_spec (size ms) 0) as [Z0|_].
      * exfalso. apply NE. rewrite Hm. apply size_zero_empty. exact Z0.
      * left. apply insert_id. exact Hst.
  - rewrite lookup_live_delete_eq. simpl. right. split; [apply delete_delete_eq|].
    intros t Ht. rewrite (lookup_live_none_later now t key st Ht Hl). reflexivity.
Qed.

(** Removing a socket that is not (or no longer) in the principal's set
    changes no live set at the current or any later instant. *)
Lemma remove_absent_socket_noop (now : Z) (u s : string) (st : Presence.RedisStore) :
  s ∉ live_members now (Presence.socket_key u) st ->
  forall t k, now <= t ->
    live_members t k (Presence.remove_socket now u s st) = live_members t k st.
Proof.
  intros Habs t k Hle.
  destruct (remove_socket_absent_shape now u s st Habs) as [->|[-> H]]; [reflexivity|].
  destruct (decide (k = Presence.socket_key u)) as [->|Hk].
  - rewrite (H t Hle). unfold live_members. rewrite lookup_live_delete_eq. reflexivity.
  - unfold live_members, Presence.lookup_live. rewrite lookup_delete_ne by congruence.
    reflexivity.
Qed.

(** The principal's live set is exactly the open sockets. *)
Lemma presence_live_members u st opens last now :
  presence_inv u st opens last -> (opens ≠ ∅ -> now <= last + 86400) ->
  live_members now (Presence.socket_key u) st = opens.
Proof.
  intros [Hnone Hsome] Hlive. unfold live_members, Presence.lookup_live.
  destruct (decide (opens = ∅)) as [E|NE].
  - rewrite (Hnone E). symmetry. exact E.
  - rewrite (Hsome NE), live_until by (apply Hlive, NE). reflexivity.
Qed.

Lemma presence_inv_init u : presence_inv u ∅ ∅ 0.
Proof. split; [intros _; apply lookup_empty|intros []; reflexivity]. Qed.

(** C4 (counterexample): one socket is connected at time 0 and never
    closed, yet 86401 s later [is_user_online] is false: the 24-hour TTL
    that [add_socket] sets has expired the key. *)
Lemma presence_ttl_counterexample :
  snd (Presence.run "u1" [(0, Presence.Connect "s1")] ∅ ∅) = {["s1"]}
  /\ Presence.is_user_online 86400 "u1" (fst (Presence.run "u1" [(0, Presence.Connect "s1")] ∅ ∅)) = true
  /\ Presence.is_user_online 86401 "u1" (fst (Presence.run "u1" [(0, Presence.Connect "s1")] ∅ ∅)) = false.
Proof.
  split; [simpl; apply union_empty_r_L|].
  split; vm_compute; reflexivity.
Qed.

(** C4 (amended): for a sequence of connects and disconnects of one
    principal, run one at a time, in which the key never reaches its
    24-hour expiry while a socket is open, [is_user_online] is true iff a
    socket is open (so false right after the last one closes), and
    removing a socket that is not open changes no live set, now or later. *)
Theorem presence_tracks_open_sockets (u : string) (tr : list (Z * Presence.ConnEvent))
    (now : Z) :
  Presence.ttl_respected tr ∅ 0 now ->
  (Presence.is_user_online now u (fst (Presence.run u tr ∅ ∅)) = true
     <-> snd (Presence.run u tr ∅ ∅) ≠ ∅)
  /\ (forall s, s ∉ snd (Presence.run u tr ∅ ∅) ->
        forall t k, now <= t ->
          live_members t k (Presence.remove_socket now u s (fst (Presence.run u tr ∅ ∅)))
          = live_members t k (fst (Presence.run u tr ∅ ∅))).
Proof.
  intros Httl.
  destruct (presence_run_inv u tr ∅ ∅ 0 now (presence_inv_init u) Httl)
    as [last [Hinv Hl]].
  split.
  - exact (presence_query u _ _ last now Hinv Hl).
  - intros s Hs t k Hle. apply remove_absent_socket_noop; [|exact Hle].
    rewrite (presence_live_members u _ _ last now Hinv Hl). exact Hs.
Qed.

(** ** C7: retry delays of the relay listener *)

Lemma listener_loop_delays (passes : list Relay.ListenPass) (rc d : Z) :
  0 <= rc -> In (Relay.Sleep d) (Relay.listener_loop rc passes) -> 2 <= d <= 30.
Proof.
  revert rc. induction passes as [|p rest IH]; intros rc Hrc Hin; simpl in Hin.
  - destruct (rc <? Relay.max_retries); simpl in Hin; [contradiction|].
    destruct Hin as [H|[]]; discriminate.
  - destruct (rc <? Relay.max_retries); simpl in Hin.
    2: { destruct Hin as [H|[]]; discriminate. }
    destruct p as [n|n].
    + apply in_app_or in Hin as [Hin|Hin].
      { apply repeat_spec in Hin. discriminate. }
      set (rc' := (if Nat.eqb n 0 then rc else 0) + 1) in *.
      assert (Hrc' : 1 <= rc') by (unfold rc'; destruct (Nat.eqb n 0); lia).
      destruct Hin as [H|[H|Hin]]; [|discriminate|].
      * injection H as <-. unfold Relay.base_delay.
        assert (2 ^ 1 <= 2 ^ rc') by (apply Z.pow_le_mono_r; lia).
        rewrite Z.mul_1_l. lia.
      * exact (IH rc' ltac:(lia) Hin).
    + apply repeat_spec in Hin. discriminate.
Qed.

(** C7: every retry delay of the listener lies between 2 s and 30 s (the
    first retry waits 2 s, never 1 s); ten consecutive failed [listen()]
    passes give the log sleep 2, 4, 8, 16, then 30 six times, each followed
    by a resubscription, and then the terminal "max retries" error. *)
Theorem listener_backoff_delays :
  (forall passes d, In d (Relay.delays (Relay.listener passes)) -> 2 <= d <= 30)
  /\ Relay.listener (repeat (Relay.FailsAfter 0) 10)
     = [Relay.Sleep 2; Relay.Resubscribe; Relay.Sleep 4; Relay.Resubscribe;
        Relay.Sleep 8; Relay.Resubscribe; Relay.Sleep 16; Relay.Resubscribe;
        Relay.Sleep 30; Relay.Resubscribe; Relay.Sleep 30; Relay.Resubscribe;
        Relay.Sleep 30; Relay.Resubscribe; Relay.Sleep 30; Relay.Resubscribe;
        Relay.Sleep 30; Relay.Resubscribe; Relay.Sleep 30; Relay.Resubscribe;
        Relay.MaxRetriesReached]
  /\ Relay.delays (Relay.listener (repeat (Relay.FailsAfter 0) 10))
     = [2; 4; 8; 16; 30; 30; 30; 30; 30; 30].
Proof.
  split; [|split; reflexivity].
  intros passes d Hin. unfold Relay.delays in Hin.
  apply list_elem_of_In, list_elem_of_omap in Hin as [e [He Hd]].
  destruct e; try discriminate. injection Hd as <-.
  apply (listener_loop_delays passes 0); [lia|]. apply list_elem_of_In. exact He.
Qed.

(* ------------------------------------------------------------------ *)
(** * The theorems at concrete inputs *)

(** alice sends to [c1]: bob's counter goes from 2 to 3. *)
Lemma send_message_increments_unread_witness :
  MessageService.is_participant Sample.db "c1" "alice" = true
  /\ exists db' m,
    MessageService.send_message Sample.db "c1" "alice" Sample.data "m4" 10 = (db', inr m)
    /\ length (participants db') = length (participants Sample.db)
    /\ (forall i p, participants Sample.db !! i = Some p ->
          part_conversation_id p = "c1" -> part_user_id p <> "alice" ->
          part_left_at p = None ->
          participants db' !! i = Some (inc_unread p)
          /\ part_unread_count (inc_unread p) = part_unread_count p + 1)
    /\ (forall i p, participants Sample.db !! i = Some p -> part_user_id p = "alice" ->
          participants db' !! i = Some p).
Proof.
  split; [reflexivity|].
  apply (send_message_increments_unread Sample.db "c1" "alice" Sample.data "m4" 10).
  reflexivity.
Defined.

(** carol has left [c1]: her send is refused and nothing changes. *)
Lemma send_message_non_participant_unchanged_witness :
  MessageService.is_participant Sample.db "c1" "carol" = false
  /\ MessageService.send_message Sample.db "c1" "carol" Sample.data "m4" 10
     = (Sample.db, inl (ValueError "User is not a participant in this conversation")).
Proof.
  split; [reflexivity|].
  apply (send_message_non_participant_unchanged Sample.db "c1" "carol" Sample.data "m4" 10).
  reflexivity.
Defined.

(** bob marks [c1] seen at [m1]. *)
Lemma mark_seen_resets_marker_only_witness :
  MessageService.find_participant "c1" "bob" (participants Sample.db) = Some Sample.p_bob
  /\ let db' := MessageService.mark_conversation_seen Sample.db "c1" "bob" "m1" in
     MessageService.find_participant "c1" "bob" (participants db')
       = Some (set_part_seen "m1" Sample.p_bob)
     /\ part_unread_count (set_part_seen "m1" Sample.p_bob) = 0
     /\ part_last_seen_message_id (set_part_seen "m1" Sample.p_bob) = Some "m1"
     /\ length (participants db') = length (participants Sample.db)
     /\ (forall i x, participants Sample.db !! i = Some x ->
           part_id x <> part_id Sample.p_bob -> participants db' !! i = Some x).
Proof.
  split; [reflexivity|].
  apply (mark_seen_resets_marker_only Sample.db "c1" "bob" "m1" Sample.p_bob).
  reflexivity.
Defined.

(** carol, who has left, marks [c1] seen at [m1]: alice's later [m3]
    becomes SEEN as well. *)
Lemma mark_seen_marks_all_foreign_messages_witness :
  MessageService.find_participant "c1" "carol" (participants Sample.db) = Some Sample.p_carol
  /\ part_left_at Sample.p_carol = Some 5
  /\ (forall i x, messages Sample.db !! i = Some x -> msg_conversation_id x = "c1" ->
        msg_sender_id x <> "carol" ->
        exists x', messages (MessageService.mark_conversation_seen Sample.db "c1" "carol" "m1")
                     !! i = Some x'
                   /\ msg_status x' = SEEN /\ msg_id x' = msg_id x
                   /\ msg_created_at x' = msg_created_at x)
  /\ (forall m', messages (MessageService.mark_conversation_seen Sample.db "c1" "carol" m')
                 = messages (MessageService.mark_conversation_seen Sample.db "c1" "carol" "m1")).
Proof.
  split; [reflexivity|]. split; [reflexivity|].
  apply (mark_seen_marks_all_foreign_messages Sample.db "c1" "carol" "m1" Sample.p_carol).
  reflexivity.
Defined.

(** A delivery receipt for [m2] (already DELIVERED) on the sample store. *)
Lemma message_status_monotone_witness :
  NoDup (map msg_id (messages Sample.db))
  /\ status_forward Sample.db (Ops.step Sample.db (Ops.MessageDelivered (Some "m2"))).
Proof.
  assert (H : NoDup (map msg_id (messages Sample.db))) by (apply (bool_decide_unpack _); vm_compute; reflexivity).
  split; [exact H|].
  exact (message_status_monotone Sample.db (Ops.MessageDelivered (Some "m2")) H).
Defined.

(** alice opens a direct chat with bob on an empty store, then bob opens
    one with alice. *)
Lemma direct_conversation_create_idempotent_witness :
  (forall x y, direct_between Sample.empty_db "alice" "bob" x = true ->
     direct_between Sample.empty_db "alice" "bob" y = true -> x = y)
  /\ (forall cv, In cv (conversations Sample.empty_db) -> conv_id cv <> Sample.gen 0%nat)
  /\ (forall p, In p (participants Sample.empty_db) ->
        part_conversation_id p <> Sample.gen 0%nat)
  /\ exists db1 c1,
    MessageService.create_conversation Sample.empty_db "alice"
      (MessageService.mkConversationCreate DIRECT ["bob"] None None) Sample.gen 1 = (db1, inr c1)
    /\ MessageService.create_conversation db1 "bob"
         (MessageService.mkConversationCreate DIRECT ["alice"] None None)
         Sample.gen' 2 = (db1, inr c1).
Proof.
  assert (H1 : forall x y, direct_between Sample.empty_db "alice" "bob" x = true ->
     direct_between Sample.empty_db "alice" "bob" y = true -> x = y)
    by (intros x y Hx; simpl in Hx; discriminate).
  assert (H2 : forall cv, In cv (conversations Sample.empty_db) -> conv_id cv <> Sample.gen 0%nat)
    by (simpl; intros _ []).
  assert (H3 : forall p, In p (participants Sample.empty_db) ->
        part_conversation_id p <> Sample.gen 0%nat) by (simpl; intros _ []).
  split; [exact H1|]. split; [exact H2|]. split; [exact H3|].
  exact (direct_conversation_create_idempotent Sample.empty_db "alice" "bob" None None None None
           Sample.gen Sample.gen' 1 2 true H1 H2 H3).
Defined.

(** alice likes her own post. *)
Lemma self_action_never_notified_witness :
  py_eq (jget Sample.self_event "actor_id") (jget Sample.self_event "user_id") = true
  /\ NotificationConsumer.process_message (NotificationConsumer.mkNState [] [])
       "post.liked" (NotificationConsumer.Object Sample.self_event)
       [("alice", "Alice")] (fun _ => true) "n1"
     = NotificationConsumer.mkNState [] [].
Proof.
  split; [reflexivity|].
  apply self_action_never_notified. reflexivity.
Defined.

(** alice sends a SEND_MESSAGE frame to [c1]. *)
Lemma send_message_frame_single_reply_witness :
  jget Sample.send_frame "type" = JStr "SEND_MESSAGE"
  /\ exists db' evs f,
    Websocket.handle_client_message Sample.db "alice" Sample.send_frame "m4" 10
      = Websocket.Returned db' evs [f]
    /\ ((exists m, f = Websocket.FrameAck (jget Sample.send_frame "tempId") (msg_id m) "SENT"
                   /\ msg_id m = "m4" /\ In m (messages db')
                   /\ exists c, jget Sample.send_frame "conversationId" = JStr c
                                /\ MessageService.is_participant Sample.db c "alice" = true)
        \/ (exists t, f = Websocket.FrameError t /\ t <> "")).
Proof.
  split; [reflexivity|].
  apply (send_message_frame_single_reply Sample.db "alice" Sample.send_frame "m4" 10).
  reflexivity.
Defined.

(** Two sockets, one closed again; queried 30 s after the first connect. *)
Lemma presence_tracks_open_sockets_witness :
  Presence.ttl_respected Sample.trace ∅ 0 30
  /\ (Presence.is_user_online 30 "u1" (fst (Presence.run "u1" Sample.trace ∅ ∅)) = true
        <-> snd (Presence.run "u1" Sample.trace ∅ ∅) ≠ ∅)
  /\ (forall s, s ∉ snd (Presence.run "u1" Sample.trace ∅ ∅) ->
        forall t k, 30 <= t ->
          live_members t k (Presence.remove_socket 30 "u1" s (fst (Presence.run "u1" Sample.trace ∅ ∅)))
          = live_members t k (fst (Presence.run "u1" Sample.trace ∅ ∅))).
Proof.
  assert (H : Presence.ttl_respected Sample.trace ∅ 0 30)
    by (simpl; repeat split; intros; lia).
  split; [exact H|].
  exact (presence_tracks_open_sockets "u1" Sample.trace 30 H).
Defined.

(* ------------------------------------------------------------------ *)
(** * Further properties of the services *)

(** ** Participant management *)

Lemma in_save_by {A} (id : A -> string) (d : A) (l : list A) (y : A) :
  In y (save_by id d l) -> y = d \/ (In y l /\ id y <> id d).
Proof.
  unfold save_by. intros Hy. apply in_map_iff in Hy as [x [<- Hx]].
  destruct (String.eqb_spec (id x) (id d)) as [_|Hne]; [left; reflexivity|].
  right. split; assumption.
Qed.

Lemma save_by_in {A} (id : A -> string) (d x : A) (l : list A) :
  In x l -> id x = id d -> In d (save_by id d l).
Proof.
  unfold save_by. intros Hx Hid. apply in_map_iff. exists x. split; [|exact Hx].
  rewrite Hid, String.eqb_refl. reflexivity.
Qed.

Lemma active_in_participant db c u p :
  In p (participants db) -> active_in c u p = true ->
  MessageService.is_participant db c u = true.
Proof.
  intros Hin Ha. rewrite is_participant_existsb. apply existsb_exists. eauto.
Qed.

Lemma find_participant_some c u ps p :
  MessageService.find_participant c u ps = Some p ->
  In p ps /\ part_conversation_id p = c /\ part_user_id p = u.
Proof.
  unfold MessageService.find_participant. intros H.
  pose proof (find_some _ _ H) as [Hin Hf]. bool_split. auto.
Qed.

(** after [add_participant(c, u, role)] the user is an active
    participant of [c], and the record returned is that active record. *)
Theorem add_participant_makes_active (db : DB) (c u : string) (role : ParticipantRole)
    (nid : string) (now : Z) :
  let r := MessageService.add_participant db c u role nid now in
  MessageService.is_participant (fst r) c u = true
  /\ In (snd r) (participants (fst r))
  /\ part_conversation_id (snd r) = c /\ part_user_id (snd r) = u
  /\ part_left_at (snd r) = None.
Proof.
  unfold MessageService.add_participant.
  destruct (MessageService.find_participant c u (participants db)) as [ex|] eqn:F.
  - apply find_participant_some in F as [Hin [Hc Hu]].
    destruct (part_left_at ex) as [l|] eqn:L; simpl.
    + assert (Hr : In (mkParticipant (part_id ex) (part_conversation_id ex) (part_user_id ex)
                    role (part_last_seen_message_id ex) (part_unread_count ex) now None)
                 (save_by part_id (mkParticipant (part_id ex) (part_conversation_id ex)
                    (part_user_id ex) role (part_last_seen_message_id ex)
                    (part_unread_count ex) now None) (participants db)))
        by (apply (save_by_in _ _ ex); [exact Hin|reflexivity]).
      repeat split; auto.
      eapply active_in_participant; [exact Hr|].
      unfold active_in; simpl. rewrite Hc, Hu, !String.eqb_refl. reflexivity.
    + repeat split; auto.
      eapply active_in_participant; [exact Hin|].
      unfold active_in, is_active. rewrite Hc, Hu, L, !String.eqb_refl. reflexivity.
  - simpl. assert (Hr : In (mkParticipant nid c u role None 0 now None)
                         (participants db ++ [mkParticipant nid c u role None 0 now None]))
      by (apply in_or_app; right; left; reflexivity).
    repeat split; auto.
    eapply active_in_participant; [exact Hr|].
    unfold active_in; simpl. rewrite !String.eqb_refl. reflexivity.
Qed.

(** [add_participant] is idempotent: a second call for the same
    conversation and user, whatever its role, id and time, writes nothing
    and returns the record of the first call. *)
Theorem add_participant_idempotent (db : DB) (c u : string) (role role' : ParticipantRole)
    (nid nid' : string) (now now' : Z) :
  let r := MessageService.add_participant db c u role nid now in
  MessageService.add_participant (fst r) c u role' nid' now' = r.
Proof.
  unfold MessageService.add_participant at 1 2.
  destruct (MessageService.find_participant c u (participants db)) as [ex|] eqn:F.
  - pose proof (find_participant_some _ _ _ _ F) as [Hin [Hc Hu]].
    destruct (part_left_at ex) as [l|] eqn:L; simpl.
    + unfold MessageService.add_participant.
      unfold MessageService.find_participant in F |- *. simpl.
      erewrite find_save_by; [reflexivity|exact F|reflexivity|].
      simpl. rewrite Hc, Hu, !String.eqb_refl. reflexivity.
    + unfold MessageService.add_participant. rewrite F, L. reflexivity.
  - simpl. unfold MessageService.add_participant. simpl.
    unfold MessageService.find_participant in F |- *.
    rewrite find_app_std, F. simpl. rewrite !String.eqb_refl. reflexivity.
Qed.

(** [remove_participant(c, u)] returns whether [u] was an active
    participant of [c]; when it returns [False] nothing is written, and
    afterwards [u] is no longer a participant, provided the active records
    of [u] in [c] share one id (as [add_participant] keeps them). *)
Theorem remove_participant_deactivates (db : DB) (c u : string) (now : Z) :
  (forall p q, In p (participants db) -> In q (participants db) ->
     active_in c u p = true -> active_in c u q = true -> part_id p = part_id q) ->
  let r := MessageService.remove_participant db c u now in
  snd r = MessageService.is_participant db c u
  /\ (snd r = false -> fst r = db)
  /\ MessageService.is_participant (fst r) c u = false.
Proof.
  intros Huniq. unfold MessageService.remove_participant, MessageService.is_participant.
  destruct (List.find _ (participants db)) as [p|] eqn:F; simpl.
  - split; [reflexivity|]. split; [discriminate|].
    pose proof (find_some _ _ F) as [Hp Hf].
    destruct (List.find _ (save_by _ _ _)) as [q|] eqn:G; [|reflexivity].
    exfalso. pose proof (find_some _ _ G) as [Hq Hg].
    apply in_save_by in Hq as [->|[Hq Hid]].
    + simpl in Hg. rewrite !andb_false_r in Hg. discriminate.
    + apply Hid. simpl. apply (Huniq q p Hq Hp); assumption.
  - repeat split. rewrite F. reflexivity.
Qed.

(** Shape of [add_participant] on a conversation whose records are all
    active: it writes nothing when the user has a record, and otherwise
    appends one fresh active record. *)
Lemma add_participant_conv_active db c u r nid now :
  conv_active c (participants db) ->
  (MessageService.find_participant c u (participants db) <> None
   /\ fst (MessageService.add_participant db c u r nid now) = db)
  \/ (MessageService.find_participant c u (participants db) = None
      /\ fst (MessageService.add_participant db c u r nid now)
         = mkDB (conversations db)
             (participants db ++ [mkParticipant nid c u r None 0 now None]) (messages db)).
Proof.
  intros Hact. unfold MessageService.add_participant.
  destruct (MessageService.find_participant c u (participants db)) as [ex|] eqn:F.
  - left. split; [discriminate|].
    apply find_participant_some in F as [Hin [Hc _]].
    pose proof (Hact ex Hin Hc) as Ha. unfold is_active in Ha.
    destruct (part_left_at ex); [discriminate|reflexivity].
  - right. split; reflexivity.
Qed.

Lemma records_of_app c u l1 l2 :
  records_of c u (l1 ++ l2) = (records_of c u l1 + records_of c u l2)%nat.
Proof. unfold records_of. rewrite List.filter_app, length_app. reflexivity. Qed.

Lemma records_of_zero c u ps :
  records_of c u ps = 0%nat <-> MessageService.find_participant c u ps = None.
Proof.
  unfold records_of, MessageService.find_participant.
  induction ps as [|x ps IH]; simpl; [tauto|].
  destruct (String.eqb (part_conversation_id x) c && String.eqb (part_user_id x) u);
    simpl; [split; discriminate|exact IH].
Qed.

(** Invariant of the member loop of [create_conversation] on a fresh
    conversation [c]: all its records are active, and user [v] has exactly
    one record if [v] was added and none otherwise. *)
Lemma add_members_fresh db c us gen k now (added : list string) :
  conv_active c (participants db) ->
  (forall v, records_of c v (participants db) = if bool_decide (v ∈ added) then 1%nat else 0%nat) ->
  let db' := MessageService.add_members db c us gen k now in
  (exists extra, participants db' = participants db ++ extra)
  /\ conv_active c (participants db')
  /\ (forall v, records_of c v (participants db')
                = if bool_decide (v ∈ us ++ added) then 1%nat else 0%nat).
Proof.
  revert db k added. induction us as [|u us IH]; intros db k added Hact Hcnt; simpl.
  - split; [exists []; rewrite app_nil_r; reflexivity|]. split; assumption.
  - destruct (add_participant_conv_active db c u MEMBER (gen k) now Hact)
      as [[Hf ->]|[Hf ->]].
    + assert (HuS : u ∈ added).
      { destruct (bool_decide (u ∈ added)) eqn:B.
        - apply bool_decide_eq_true in B. exact B.
        - exfalso. apply Hf. apply records_of_zero. rewrite Hcnt, B. reflexivity. }
      destruct (IH db (S k) added Hact Hcnt) as [Hext [Hact' Hcnt']].
      split; [exact Hext|]. split; [exact Hact'|].
      intros v. rewrite Hcnt'.
      destruct (bool_decide_reflect (v ∈ us ++ added)) as [Hv|Hv];
        destruct (bool_decide_reflect (v ∈ u :: us ++ added)) as [Hv'|Hv'];
        try reflexivity; exfalso; set_solver.
    + set (np := mkParticipant (gen k) c u MEMBER None 0 now None).
      assert (Hact1 : conv_active c (participants db ++ [np])).
      { intros p Hp Hc. apply in_app_or in Hp as [Hp|[<-|[]]]; [exact (Hact p Hp Hc)|reflexivity]. }
      assert (HuS : u ∉ added).
      { intros HuS. apply records_of_zero in Hf. rewrite Hcnt in Hf.
        rewrite bool_decide_eq_true_2 in Hf by exact HuS. discriminate. }
      assert (Hcnt1 : forall v, records_of c v (participants db ++ [np])
                      = if bool_decide (v ∈ u :: added) then 1%nat else 0%nat).
      { intros v. rewrite records_of_app, Hcnt. unfold records_of at 1. unfold np. simpl. rewrite String.eqb_refl. simpl.
        destruct (String.eqb_spec u v) as [<-|Huv].
        - simpl.
          rewrite bool_decide_eq_false_2 by exact HuS.
          rewrite bool_decide_eq_true_2 by set_solver. reflexivity.
        - simpl. rewrite Nat.add_0_r.
          destruct (bool_decide_reflect (v ∈ added)) as [Hv|Hv];
            destruct (bool_decide_reflect (v ∈ u :: added)) as [Hv'|Hv'];
            try reflexivity; exfalso; set_solver. }
      destruct (IH (mkDB (conversations db) (participants db ++ [np]) (messages db)) (S k) (u :: added)
                  Hact1 Hcnt1) as [Hext [Hact' Hcnt']].
      split.
      { destruct Hext as [extra Hext]. exists (np :: extra). rewrite Hext. simpl.
        rewrite <- app_assoc. reflexivity. }
      split; [exact Hact'|].
      intros v. rewrite Hcnt'.
      destruct (bool_decide_reflect (v ∈ us ++ u :: added)) as [Hv|Hv];
        destruct (bool_decide_reflect (v ∈ u :: us ++ added)) as [Hv'|Hv'];
        try reflexivity; exfalso; set_solver.
Qed.

Lemma add_participant_conversations db c u r nid now :
  conversations (fst (MessageService.add_participant db c u r nid now)) = conversations db.
Proof.
  unfold MessageService.add_participant.
  destruct (MessageService.find_participant _ _ _) as [e|]; simpl; [|reflexivity].
  destruct (part_left_at e); reflexivity.
Qed.

Lemma add_members_conversations db c us gen k now :
  conversations (MessageService.add_members db c us gen k now) = conversations db.
Proof.
  revert db k; induction us as [|u us IH]; intros db k; simpl; [reflexivity|].
  rewrite IH. apply add_participant_conversations.
Qed.

Lemma is_participant_records db c v :
  conv_active c (participants db) ->
  MessageService.is_participant db c v = negb (Nat.eqb (records_of c v (participants db)) 0).
Proof.
  rewrite is_participant_existsb. unfold records_of.
  induction (participants db) as [|x ps IH]; intros Hact; simpl; [reflexivity|].
  assert (Hps : conv_active c ps) by (intros p Hp; apply Hact; right; exact Hp).
  unfold active_in at 1.
  destruct (String.eqb_spec (part_conversation_id x) c) as [Hc|Hc]; simpl;
    [|apply IH; exact Hps].
  destruct (String.eqb (part_user_id x) v); simpl; [|apply IH; exact Hps].
  rewrite (Hact x (or_introl eq_refl) Hc). reflexivity.
Qed.

Lemma fresh_records_zero c v ps :
  (forall p, In p ps -> part_conversation_id p <> c) -> records_of c v ps = 0%nat.
Proof.
  intros H. apply records_of_zero. apply find_none_intro. intros p Hp.
  destruct (String.eqb_spec (part_conversation_id p) c) as [E|_]; [|reflexivity].
  exfalso. exact (H p Hp E).
Qed.

(** [create_conversation] of a group under a fresh uuid stores the
    conversation with the creator as [created_by], makes exactly the
    creator and the listed users active participants, with one record
    each (duplicates in the list are ignored), and the creator is [ADMIN]. *)
Theorem create_group_members (db : DB) (cr : string)
    (data : MessageService.ConversationCreate) (gen : nat -> string) (now : Z) :
  MessageService.cc_type data = GROUP ->
  (forall p, In p (participants db) -> part_conversation_id p <> gen 0%nat) ->
  let r := MessageService.create_conversation db cr data gen now in
  let ids := MessageService.cc_participant_ids data in
  (exists conv, snd r = inr conv /\ conv_id conv = gen 0%nat
                /\ conv_created_by conv = Some cr /\ In conv (conversations (fst r)))
  /\ (forall v, MessageService.is_participant (fst r) (gen 0%nat) v
                = bool_decide (v ∈ cr :: ids))
  /\ (forall v, records_of (gen 0%nat) v (participants (fst r))
                = if bool_decide (v ∈ cr :: ids) then 1%nat else 0%nat)
  /\ (exists p, MessageService.find_participant (gen 0%nat) cr (participants (fst r)) = Some p
                /\ part_role p = ADMIN).
Proof.
  intros Hg Hfresh. unfold MessageService.create_conversation. rewrite Hg.
  unfold MessageService.create_conversation_new. rewrite Hg. simpl.
  set (c := gen 0%nat).
  set (conv := mkConversation c GROUP (MessageService.cc_name data)
                 (MessageService.cc_avatar_url data) (Some cr) now now None None None).
  set (np := mkParticipant (gen 1%nat) c cr ADMIN None 0 now None).
  assert (F0 : MessageService.find_participant c cr (participants db) = None).
  { apply records_of_zero. apply fresh_records_zero. exact Hfresh. }
  assert (E2 : fst (MessageService.add_participant
                      (mkDB (conversations db ++ [conv]) (participants db) (messages db))
                      c cr ADMIN (gen 1%nat) now)
               = mkDB (conversations db ++ [conv]) (participants db ++ [np]) (messages db)).
  { unfold MessageService.add_participant. simpl. rewrite F0. reflexivity. }
  rewrite E2.
  assert (Hact : conv_active c (participants db ++ [np])).
  { intros p Hp Hc. apply in_app_or in Hp as [Hp|[<-|[]]];
      [exfalso; exact (Hfresh p Hp Hc)|reflexivity]. }
  assert (Hcnt : forall v, records_of c v (participants db ++ [np])
                 = if bool_decide (v ∈ [cr]) then 1%nat else 0%nat).
  { intros v. rewrite records_of_app, fresh_records_zero by exact Hfresh.
    unfold records_of, np. simpl. rewrite String.eqb_refl. simpl.
    destruct (String.eqb_spec cr v) as [<-|Hv].
    - rewrite bool_decide_eq_true_2 by set_solver. reflexivity.
    - rewrite bool_decide_eq_false_2 by set_solver. reflexivity. }
  destruct (add_members_fresh (mkDB (conversations db ++ [conv]) (participants db ++ [np]) (messages db))
              c (MessageService.cc_participant_ids data) gen 2 now [cr] Hact Hcnt) as [[extra Hext] [Hact' Hcnt']].
  set (db3 := MessageService.add_members _ c _ gen 2 now) in *.
  assert (Hcnt3 : forall v, records_of c v (participants db3)
                  = if bool_decide (v ∈ cr :: MessageService.cc_participant_ids data)
                    then 1%nat else 0%nat).
  { intros v. rewrite Hcnt'.
    destruct (bool_decide_reflect (v ∈ MessageService.cc_participant_ids data ++ [cr])) as [H1|H1];
      destruct (bool_decide_reflect (v ∈ cr :: MessageService.cc_participant_ids data)) as [H2|H2];
      try reflexivity; exfalso; set_solver. }
  split; [|split; [|split]].
  - exists conv. repeat split.
    unfold db3. rewrite add_members_conversations. simpl.
    apply in_or_app. right. left. reflexivity.
  - intros v. rewrite is_participant_records by exact Hact'. rewrite Hcnt3.
    destruct (bool_decide _); reflexivity.
  - exact Hcnt3.
  - exists np. split; [|reflexivity].
    simpl in Hext. rewrite Hext. unfold MessageService.find_participant.
    rewrite <- app_assoc, find_app_std.
    unfold MessageService.find_participant in F0. rewrite F0. simpl.
    unfold np. simpl. rewrite !String.eqb_refl. reflexivity.
Qed.

Lemma save_by_idem {A} (id : A -> string) (d : A) (l : list A) :
  save_by id d (save_by id d l) = save_by id d l.
Proof.
  unfold save_by. rewrite map_map. apply map_ext. intros x.
  destruct (String.eqb_spec (id x) (id d)) as [E|NE].
  - rewrite String.eqb_refl. reflexivity.
  - apply String.eqb_neq in NE. rewrite NE. reflexivity.
Qed.

(** [mark_conversation_seen] is idempotent: repeating the call with the
    same arguments writes nothing more. *)
Theorem mark_seen_idempotent (db : DB) (c u m : string) :
  let db' := MessageService.mark_conversation_seen db c u m in
  MessageService.mark_conversation_seen db' c u m = db'.
Proof.
  cbv zeta. unfold MessageService.mark_conversation_seen.
  destruct (MessageService.find_participant c u (participants db)) as [p|] eqn:Hp;
    [|rewrite ?Hp; reflexivity].
  pose proof (find_participant_some _ _ _ _ Hp) as [_ [Hc Hu]].
  simpl.
  unfold MessageService.find_participant in Hp |- *.
  rewrite (find_save_by _ part_id _ p (set_part_seen m p) Hp eq_refl)
    by (simpl; rewrite Hc, Hu, !String.eqb_refl; reflexivity).
  simpl. f_equal.
  - exact (save_by_idem part_id (set_part_seen m p) (participants db)).
  - rewrite map_map. apply map_ext. intros x.
    destruct (MessageService.seen_target c u x) eqn:T; [|rewrite T; reflexivity].
    unfold MessageService.seen_target, set_msg_status in *. simpl.
    rewrite andb_false_r. reflexivity.
Qed.

(** ** Message delivery *)

(** [_handle_message_delivered] with a non-empty id moves the message
    with that id from [SENT] to [DELIVERED] (any other status is kept),
    leaves conversations, participants and every message with another id
    untouched, and a redelivery of the same event writes nothing more. *)
Theorem message_delivered_effect (db : DB) (mid : string) :
  mid <> "" ->
  let db' := MessageConsumer.handle_message_delivered db (Some mid) in
  conversations db' = conversations db
  /\ participants db' = participants db
  /\ List.find (fun m => String.eqb (msg_id m) mid) (messages db')
     = option_map (fun m => if MessageStatus_eqb (msg_status m) SENT
                            then set_msg_status DELIVERED m else m)
         (List.find (fun m => String.eqb (msg_id m) mid) (messages db))
  /\ (forall i x, messages db !! i = Some x -> msg_id x <> mid ->
        messages db' !! i = Some x)
  /\ MessageConsumer.handle_message_delivered db' (Some mid) = db'.
Proof.
  intros Hne. cbv zeta. unfold MessageConsumer.handle_message_delivered.
  rewrite (proj2 (String.eqb_neq mid "") Hne).
  destruct (List.find _ (messages db)) as [msg|] eqn:F.
  - pose proof (find_some _ _ F) as [_ Hid]. apply String.eqb_eq in Hid.
    destruct (msg_status msg) eqn:St; simpl;
      try (rewrite F; simpl; rewrite St; simpl;
           repeat split; try reflexivity; intros; assumption).
    assert (G : List.find (fun m => String.eqb (msg_id m) mid)
                  (save_by msg_id (set_msg_status DELIVERED msg) (messages db))
                = Some (set_msg_status DELIVERED msg)).
    { apply (find_save_by _ _ _ msg); [exact F|reflexivity|].
      simpl. rewrite Hid, String.eqb_refl. reflexivity. }
    rewrite G, St. repeat split.
    + intros i x Hi Hx. apply lookup_save_by_other; [exact Hi|].
      simpl. rewrite Hid. exact Hx.
  - simpl. rewrite F. repeat split. intros; assumption.
Qed.

(** for a valid [message.sent] event whose message is stored,
    [_handle_message_sent] pushes [NEW_MESSAGE] exactly to the online,
    active participants of the conversation other than the sender (never to
    the sender), every other push is the [MESSAGE_ACK] to the sender, and
    the ack is sent exactly when the sender is online. *)
Theorem message_sent_recipients (db : DB) (mid cid sid : string) (temp : JVal)
    (online : string -> bool) (msg : Message) :
  mid <> "" -> cid <> "" -> sid <> "" ->
  List.find (fun m => String.eqb (msg_id m) mid) (messages db) = Some msg ->
  let out := MessageConsumer.handle_message_sent db (Some mid) (Some cid) (Some sid)
               temp online in
  (forall u, In (u, MessageConsumer.PushNewMessage cid (msg_id msg) (msg_sender_id msg)) out
             <-> u <> sid /\ online u = true /\ MessageService.is_participant db cid u = true)
  /\ (forall u p, In (u, p) out ->
        p = MessageConsumer.PushNewMessage cid (msg_id msg) (msg_sender_id msg)
        \/ (u = sid /\ p = MessageConsumer.PushAck temp mid))
  /\ (In (sid, MessageConsumer.PushAck temp mid) out <-> online sid = true).
Proof.
  intros Hm Hc Hs F. cbv zeta. unfold MessageConsumer.handle_message_sent.
  rewrite (proj2 (String.eqb_neq mid "") Hm), (proj2 (String.eqb_neq cid "") Hc),
    (proj2 (String.eqb_neq sid "") Hs), F. simpl.
  split; [|split].
  - intros u. rewrite in_app_iff, in_flat_map. split.
    + intros [[p [Hp Hin]]|Hack].
      * apply filter_In in Hp as [Hp Hf]. bool_split.
        destruct (online (part_user_id p)) eqn:O; simpl in Hin;
          [destruct Hin as [[= <-]|[]]|contradiction].
        split; [intros E; rewrite E, String.eqb_refl in H1; discriminate|].
        split; [exact O|].
        eapply active_in_participant; [exact Hp|].
        unfold active_in. rewrite H, H0, !String.eqb_refl. reflexivity.
      * destruct (online sid); simpl in Hack; [destruct Hack as [[=]|[]]|contradiction].
    + intros [Hu [O Hp]]. left.
      rewrite is_participant_existsb in Hp. apply existsb_exists in Hp as [p [Hp Ha]].
      unfold active_in in Ha. bool_split.
      exists p. split.
      * apply filter_In. split; [exact Hp|]. rewrite H1, H.
        rewrite String.eqb_refl. simpl.
        rewrite (proj2 (String.eqb_neq u sid) Hu), H0. reflexivity.
      * rewrite H1, O. left. reflexivity.
  - intros u p. rewrite in_app_iff, in_flat_map.
    intros [[q [_ Hin]]|Hack].
    + destruct (online (part_user_id q)); simpl in Hin;
        [destruct Hin as [[= _ <-]|[]]; left; reflexivity|contradiction].
    + destruct (online sid); simpl in Hack;
        [destruct Hack as [[= <- <-]|[]]; right; split; reflexivity|contradiction].
  - rewrite in_app_iff, in_flat_map. split.
    + intros [[q [_ Hin]]|Hack].
      * destruct (online (part_user_id q)); simpl in Hin; [destruct Hin as [[=]|[]]|contradiction].
      * destruct (online sid); [reflexivity|contradiction].
    + intros O. right. rewrite O. left. reflexivity.
Qed.

(** ** Notification consumer *)

Lemma as_str_some v s : NotificationConsumer.as_str v = Some s -> v = JStr s.
Proof. destruct v; simpl; congruence. Qed.

Ltac nstate_unchanged :=
  split; [exists []; split; [symmetry; apply app_nil_r|simpl; lia]
         |exists []; split; [symmetry; apply app_nil_r|intros ? ? []]].

(** one queue message makes [_process_message] append at most one
    notification and only append to the published payloads; every payload
    it publishes is a notification it stored, addressed to its recipient,
    who is online and is not the actor. *)
Theorem process_message_publishes_stored (st : NotificationConsumer.NState)
    (rk : string) (body : NotificationConsumer.Body) (users : list (string * string))
    (online : string -> bool) (nid : string) :
  let st' := NotificationConsumer.process_message st rk body users online nid in
  (exists extra, NotificationConsumer.notifications st'
                 = NotificationConsumer.notifications st ++ extra
                 /\ (length extra <= 1)%nat)
  /\ (exists pub, NotificationConsumer.published st'
                  = NotificationConsumer.published st ++ pub
                  /\ forall u n, In (u, n) pub ->
                       In n (NotificationConsumer.notifications st')
                       /\ NotificationConsumer.notif_user_id n = u
                       /\ NotificationConsumer.notif_actor_id n <> u
                       /\ online u = true).
Proof.
  cbv zeta. unfold NotificationConsumer.process_message.
  destruct body as [| v | kvs]; [nstate_unchanged|nstate_unchanged|].
  destruct (NotificationConsumer.ROUTING_KEY_TO_TYPE rk) as [t|]; [|nstate_unchanged].
  destruct (negb (truthy (jget kvs "actor_id")) || negb (truthy (jget kvs "user_id")));
    [nstate_unchanged|].
  destruct (py_eq (jget kvs "actor_id") (jget kvs "user_id")) eqn:Peq; [nstate_unchanged|].
  destruct (NotificationConsumer.as_str (jget kvs "user_id")) as [uid|] eqn:U;
    [|nstate_unchanged].
  destruct (NotificationConsumer.as_str (jget kvs "actor_id")) as [aid|] eqn:A;
    [|nstate_unchanged].
  destruct (NotificationConsumer.as_opt_str (jget kvs "post_id")) as [pid|];
    [|nstate_unchanged].
  destruct (NotificationConsumer.as_opt_str (jget kvs "comment_id")) as [cid|];
    [|nstate_unchanged].
  apply as_str_some in U, A. rewrite U, A in Peq. simpl in Peq.
  apply String.eqb_neq in Peq.
  set (n := NotificationConsumer.mkNotification nid uid aid t pid cid _).
  split.
  - exists [n]. destruct (online uid); simpl; split; reflexivity || lia.
  - destruct (online uid) eqn:O; simpl.
    + exists [(uid, n)]. split; [reflexivity|].
      intros u m [[= <- <-]|[]]. repeat split; [|exact Peq|exact O].
      apply in_or_app. right. left. reflexivity.
    + exists []. split; [symmetry; apply app_nil_r|intros ? ? []].
Qed.

(** an event with a known routing key whose [actor_id] and [user_id]
    are distinct non-empty strings and whose [post_id] and [comment_id]
    are strings, null or absent stores exactly one notification for
    [user_id], and publishes it to that user exactly when the user is
    online. *)
Theorem process_message_valid_event (st : NotificationConsumer.NState)
    (rk : string) (kvs : list (string * JVal)) (users : list (string * string))
    (online : string -> bool) (nid : string) (t : NotificationConsumer.NotificationType)
    (a u : string) (pid cid : option string) :
  NotificationConsumer.ROUTING_KEY_TO_TYPE rk = Some t ->
  jget kvs "actor_id" = JStr a -> jget kvs "user_id" = JStr u ->
  a <> "" -> u <> "" -> a <> u ->
  NotificationConsumer.as_opt_str (jget kvs "post_id") = Some pid ->
  NotificationConsumer.as_opt_str (jget kvs "comment_id") = Some cid ->
  let st' := NotificationConsumer.process_message st rk (NotificationConsumer.Object kvs)
               users online nid in
  exists content,
    let n := NotificationConsumer.mkNotification nid u a t pid cid content in
    NotificationConsumer.notifications st' = NotificationConsumer.notifications st ++ [n]
    /\ NotificationConsumer.published st'
       = NotificationConsumer.published st ++ (if online u then [(u, n)] else []).
Proof.
  intros Ht Ha Hu Ha0 Hu0 Hau Hp Hc. cbv zeta.
  unfold NotificationConsumer.process_message. rewrite Ht, Ha, Hu, Hp, Hc. simpl.
  rewrite (proj2 (String.eqb_neq a "") Ha0), (proj2 (String.eqb_neq u "") Hu0),
    (proj2 (String.eqb_neq a u) Hau). simpl.
  eexists. destruct (online u); simpl; split; reflexivity || (symmetry; apply app_nil_r).
Qed.

(** ** Websocket [MARK_SEEN] *)

(** the websocket [MARK_SEEN] branch does not check membership: a
    frame from a user with no participant record in the conversation
    writes nothing, sends no frame, and still publishes a [MESSAGE_SEEN]
    event for that conversation. *)
Theorem ws_mark_seen_without_membership (db : DB) (u : string)
    (msg : list (string * JVal)) (c m nid : string) (now : Z) :
  jget msg "type" = JStr "MARK_SEEN" ->
  jget msg "conversationId" = JStr c -> jget msg "messageId" = JStr m ->
  c <> "" -> m <> "" ->
  MessageService.find_participant c u (participants db) = None ->
  Websocket.handle_client_message db u msg nid now
  = Websocket.Returned db [Websocket.EvMessageSeen c m u] [].
Proof.
  intros Ht Hc Hm Hc0 Hm0 Hf. unfold Websocket.handle_client_message.
  rewrite Ht, Hc, Hm. simpl.
  rewrite (proj2 (String.eqb_neq c "") Hc0), (proj2 (String.eqb_neq m "") Hm0). simpl.
  unfold MessageService.mark_conversation_seen. rewrite Hf. reflexivity.
Qed.

(** ** Pub/Sub channel names *)

Section SplitColon.

Local Abbreviation split := (PubSub.split_on ":"%char).

Lemma has_colon_cons c s :
  PubSub.has_colon (String c s) = Ascii.eqb c ":"%char || PubSub.has_colon s.
Proof. reflexivity. Qed.

Lemma split_on_nonnil s : exists p ps, split s = p :: ps.
Proof.
  induction s as [|c s IH]; simpl; [eauto|].
  destruct IH as [p [ps ->]]. destruct (Ascii.eqb c ":"%char); eauto.
Qed.

Lemma split_on_no_colon s : PubSub.has_colon s = false -> split s = [s].
Proof.
  induction s as [|c s IH]; simpl; [reflexivity|].
  rewrite has_colon_cons. intros H. apply orb_false_iff in H as [Hc Hs].
  rewrite Hc, (IH Hs). reflexivity.
Qed.

Lemma split_on_colon_two s :
  PubSub.has_colon s = true -> exists p q ps, split s = p :: q :: ps.
Proof.
  induction s as [|c s IH]; [discriminate|]. rewrite has_colon_cons. simpl. intros H.
  destruct (Ascii.eqb c ":"%char).
  - destruct (split_on_nonnil s) as [p [ps ->]]. eauto.
  - destruct (IH H) as [p [q [ps ->]]]. eauto.
Qed.

Lemma colon_of_app s1 s2 : PubSub.has_colon (s1 ++ String ":"%char s2) = true.
Proof.
  induction s1 as [|c s1 IH].
  - reflexivity.
  - change (PubSub.has_colon (String c (s1 ++ String ":"%char s2)) = true).
    rewrite has_colon_cons, IH, orb_true_r. reflexivity.
Qed.

Lemma last_split_app s1 s2 d :
  List.last (split (s1 ++ String ":"%char s2)) d = List.last (split s2) d.
Proof.
  induction s1 as [|c s1 IH]; simpl.
  - destruct (split_on_nonnil s2) as [p [ps ->]]. reflexivity.
  - destruct (split_on_colon_two (s1 ++ String ":"%char s2) (colon_of_app s1 s2))
      as [p [q [ps E]]].
    rewrite E in IH |- *.
    destruct (Ascii.eqb c ":"%char); exact IH.
Qed.

Lemma split_on_lengths s x : In x (split s) -> (String.length x <= String.length s)%nat.
Proof.
  revert x. induction s as [|c s IH]; simpl; intros x Hx.
  - destruct Hx as [<-|[]]. reflexivity.
  - destruct (Ascii.eqb c ":"%char).
    + destruct Hx as [<-|Hx]; simpl; [lia|]. specialize (IH x Hx). lia.
    + destruct (split s) as [|p ps] eqn:E.
      * destruct Hx as [<-|[]]. simpl. lia.
      * destruct Hx as [<-|Hx].
        -- simpl. specialize (IH p (or_introl eq_refl)). lia.
        -- specialize (IH x (or_intror Hx)). lia.
Qed.

Lemma last_in_std {A} (l : list A) (d : A) : l <> [] -> In (List.last l d) l.
Proof.
  induction l as [|x l IH]; [congruence|]. intros _.
  destruct l as [|y l]; [left; reflexivity|]. right. apply IH. discriminate.
Qed.

Lemma string_length_app (s1 s2 : string) :
  String.length (s1 ++ s2) = (String.length s1 + String.length s2)%nat.
Proof. induction s1 as [|c s1 IH]; simpl; [reflexivity|]. rewrite IH. reflexivity. Qed.

Lemma colon_decompose s :
  PubSub.has_colon s = true -> exists s1 s2 : string, s = (s1 ++ String ":"%char s2)%string.
Proof.
  induction s as [|c s IH]; [discriminate|]. rewrite has_colon_cons. intros H.
  destruct (Ascii.eqb_spec c ":"%char) as [->|Hc].
  - exists "", s. reflexivity.
  - destruct (IH H) as [s1 [s2 ->]]. exists (String c s1), s2. reflexivity.
Qed.

End SplitColon.

(** the pattern listener recovers the user id from the channel that
    [publish_notification] / [publish_to_user] build for that user
    ([channel.split(":")[-1]] of [notification:user:<id>]) exactly when
    the id contains no colon; otherwise it gets the part after its last
    colon. *)
Theorem channel_user_id_roundtrip (u : string) :
  (PubSub.channel_user_id (PubSub.notification_channel u) = u
   <-> PubSub.has_colon u = false)
  /\ PubSub.channel_user_id (PubSub.notification_channel u)
     = List.last (PubSub.split_on ":"%char u) "".
Proof.
  assert (E : PubSub.channel_user_id (PubSub.notification_channel u)
              = List.last (PubSub.split_on ":"%char u) "").
  { unfold PubSub.channel_user_id, PubSub.notification_channel.
    exact (last_split_app "notification:user" u ""). }
  split; [|exact E]. rewrite E. split.
  - intros Hl. destruct (PubSub.has_colon u) eqn:Hc; [exfalso|reflexivity].
    destruct (colon_decompose u Hc) as [s1 [s2 Hu]].
    assert (Hl2 : List.last (PubSub.split_on ":"%char s2) "" = u)
      by (rewrite <- Hl, Hu at 1; symmetry; apply last_split_app).
    destruct (split_on_nonnil s2) as [p [ps Hs]].
    assert (Hin : In (List.last (PubSub.split_on ":"%char s2) "")
                     (PubSub.split_on ":"%char s2))
      by (rewrite Hs; apply last_in_std; discriminate).
    apply split_on_lengths in Hin. rewrite Hl2 in Hin.
    assert (Hlen : String.length u = (String.length s1 + S (String.length s2))%nat)
      by (rewrite Hu; apply string_length_app).
    lia.
  - intros Hc. rewrite (split_on_no_colon u Hc). reflexivity.
Qed.

(** ** Presence keys of different users *)

Lemma string_app_inv_tail (u v w : string) : (u ++ w = v ++ w)%string -> u = v.
Proof.
  revert v. induction u as [|c u IH]; intros [|c' v] H; simpl in H.
  - reflexivity.
  - exfalso. apply (f_equal String.length) in H. simpl in H.
    rewrite !string_length_app in H. simpl in H. lia.
  - exfalso. apply (f_equal String.length) in H. simpl in H.
    rewrite !string_length_app in H. simpl in H. lia.
  - injection H as -> H. f_equal. apply IH. exact H.
Qed.

Lemma socket_key_inj u v : Presence.socket_key u = Presence.socket_key v -> u = v.
Proof.
  unfold Presence.socket_key. simpl. intros H. injection H as H.
  exact (string_app_inv_tail u v ":sockets" H).
Qed.

Lemma scard_same_lookup now k (st1 st2 : Presence.RedisStore) :
  st1 !! k = st2 !! k -> Presence.scard now k st1 = Presence.scard now k st2.
Proof. unfold Presence.scard, Presence.lookup_live. intros ->. reflexivity. Qed.

Lemma sadd_other now k m k' st : k <> k' -> Presence.sadd now k m st !! k' = st !! k'.
Proof.
  intros H. unfold Presence.sadd.
  destruct (Presence.lookup_live now k st); apply lookup_insert_ne; exact H.
Qed.

Lemma expire_other now k ttl k' st : k <> k' -> Presence.expire now k ttl st !! k' = st !! k'.
Proof.
  intros H. unfold Presence.expire.
  destruct (Presence.lookup_live now k st); [apply lookup_insert_ne; exact H|reflexivity].
Qed.

Lemma srem_other now k m k' st : k <> k' -> Presence.srem now k m st !! k' = st !! k'.
Proof.
  intros H. unfold Presence.srem.
  destruct (Presence.lookup_live now k st); [|apply lookup_delete_ne; exact H].
  destruct (decide _); [apply lookup_delete_ne|apply lookup_insert_ne]; exact H.
Qed.

(** connecting or disconnecting a socket of user [u] never changes
    whether another user [v] is reported online, at any later instant:
    the two users' socket sets live under different keys. *)
Theorem presence_users_isolated (now now' : Z) (u v s : string)
    (st : Presence.RedisStore) :
  u <> v ->
  Presence.is_user_online now' v (Presence.add_socket now u s st)
  = Presence.is_user_online now' v st
  /\ Presence.is_user_online now' v (Presence.remove_socket now u s st)
     = Presence.is_user_online now' v st.
Proof.
  intros Huv. assert (Hk : Presence.socket_key u <> Presence.socket_key v)
    by (intros E; apply Huv, socket_key_inj, E).
  unfold Presence.is_user_online. split; f_equal; apply scard_same_lookup.
  - unfold Presence.add_socket. rewrite expire_other by exact Hk.
    apply sadd_other. exact Hk.
  - unfold Presence.remove_socket.
    destruct (Nat.eqb _ 0); [rewrite lookup_delete_ne by exact Hk|];
      apply srem_other; exact Hk.
Qed.

(** ** Relay listener reconnections *)

Lemma listener_loop_receiving (passes : list Relay.ListenPass) (rc : Z) :
  rc < Relay.max_retries -> Forall receives_before_failing passes ->
  ~ In Relay.MaxRetriesReached (Relay.listener_loop rc passes)
  /\ (forall d, In (Relay.Sleep d) (Relay.listener_loop rc passes) -> d = 2).
Proof.
  revert rc. induction passes as [|p rest IH]; intros rc Hrc Hall; simpl.
  - rewrite (proj2 (Z.ltb_lt rc Relay.max_retries) Hrc). split; [intros []|intros _ []].
  - rewrite (proj2 (Z.ltb_lt rc Relay.max_retries) Hrc).
    inversion Hall as [|? ? Hp Hrest]; subst.
    destruct p as [n|n]; simpl in Hp.
    + replace (Nat.eqb n 0) with false by (symmetry; apply Nat.eqb_neq; lia).
      destruct (IH 1 ltac:(unfold Relay.max_retries; lia) Hrest) as [Hm Hs].
      split.
      * intros Hin. apply in_app_or in Hin as [Hin|[H|[H|Hin]]];
          [apply repeat_spec in Hin; discriminate|discriminate|discriminate|exact (Hm Hin)].
      * intros d Hin. apply in_app_or in Hin as [Hin|[H|[H|Hin]]].
        -- apply repeat_spec in Hin. discriminate.
        -- injection H as <-. reflexivity.
        -- discriminate.
        -- exact (Hs d Hin).
    + split.
      * intros Hin. apply repeat_spec in Hin. discriminate.
      * intros d Hin. apply repeat_spec in Hin. discriminate.
Qed.

(** the retry counter of the pattern listener is reset by every
    received message, so as long as each failing [listen()] pass has
    delivered at least one message first, the listener never gives up
    (no "max retries" stop) and every reconnection waits exactly 2
    seconds. *)
Theorem listener_receiving_never_gives_up (passes : list Relay.ListenPass) :
  Forall receives_before_failing passes ->
  ~ In Relay.MaxRetriesReached (Relay.listener passes)
  /\ (forall d, In d (Relay.delays (Relay.listener passes)) -> d = 2).
Proof.
  intros Hall. unfold Relay.listener.
  destruct (listener_loop_receiving passes 0 ltac:(unfold Relay.max_retries; lia) Hall)
    as [Hm Hs].
  split; [exact Hm|].
  intros d Hin. unfold Relay.delays in Hin.
  apply list_elem_of_In, list_elem_of_omap in Hin as [e [He Hd]].
  destruct e; try discriminate. injection Hd as <-.
  apply Hs. apply list_elem_of_In. exact He.
Qed.

(** ** Message pagination *)

#[local] Instance newer_first_trans : Transitive MessageService.newer_first.
Proof. intros a b c. unfold MessageService.newer_first. lia. Qed.

#[local] Instance newer_first_total : Total MessageService.newer_first.
Proof. intros a b. unfold MessageService.newer_first. lia. Qed.

Lemma in_message_query db c cur m :
  In m (MessageService.message_query db c cur)
  <-> In m (messages db) /\ msg_conversation_id m = c
      /\ (forall t, cur = Some t -> msg_created_at m < t).
Proof.
  unfold MessageService.message_query. rewrite filter_In.
  rewrite andb_true_iff, String.eqb_eq.
  destruct cur as [t|].
  - rewrite Z.ltb_lt. split.
    + intros [Hm [Hc Ht]]. repeat split; auto. intros t' [= <-]. exact Ht.
    + intros [Hm [Hc Ht]]. auto.
  - split; [intros [Hm [Hc _]]; repeat split; auto; discriminate|tauto].
Qed.

Lemma get_messages_shape db c cur limit :
  let L := merge_sort MessageService.newer_first (MessageService.message_query db c cur) in
  MessageService.get_messages db c cur limit
  = (reverse (take limit L),
     if Nat.ltb limit (length L)
     then option_map msg_created_at (stdpp.list_basics.list.last (take limit L)) else None,
     Nat.ltb limit (length L)).
Proof.
  intros L. unfold MessageService.get_messages. cbv zeta. fold L.
  assert (E : Nat.ltb limit (length (take (S limit) L)) = Nat.ltb limit (length L)).
  { rewrite length_take.
    destruct (Nat.ltb_spec limit (Nat.min (S limit) (length L)));
      destruct (Nat.ltb_spec limit (length L)); lia. }
  rewrite E. destruct (Nat.ltb_spec limit (length L)) as [H|H].
  - rewrite take_take, Nat.min_l by lia.
    destruct (stdpp.list_basics.list.last (take limit L)); reflexivity.
  - rewrite (take_ge L (S limit)) by lia. rewrite (take_ge L limit) by lia. reflexivity.
Qed.

(** Every message of a page answers the query. *)
Lemma get_messages_sound db c cur limit m :
  In m (fst (fst (MessageService.get_messages db c cur limit))) ->
  In m (messages db) /\ msg_conversation_id m = c
  /\ (forall t, cur = Some t -> msg_created_at m < t).
Proof.
  rewrite get_messages_shape. simpl. intros Hm.
  apply in_message_query.
  apply list_elem_of_In in Hm. rewrite elem_of_reverse in Hm.
  apply list_elem_of_In. rewrite <- (merge_sort_Permutation MessageService.newer_first).
  rewrite <- (take_drop limit (merge_sort _ _)). apply elem_of_app. left. exact Hm.
Qed.

(** a page of [get_messages] holds at most [limit] messages, all of the
    conversation and older than the cursor, oldest first; no message of
    the query left off the page is newer than one on it; [has_more] tells
    whether the query has more than [limit] results; a page with
    [has_more] false holds every result of the query; and [next_cursor]
    is the time of the oldest message of the page when [has_more] holds,
    null otherwise. *)
Theorem get_messages_page (db : DB) (c : string) (cur : option Z) (limit : nat) :
  let '(data, next, more) := MessageService.get_messages db c cur limit in
  (length data <= limit)%nat
  /\ (forall m, In m data ->
        In m (messages db) /\ msg_conversation_id m = c
        /\ (forall t, cur = Some t -> msg_created_at m < t))
  /\ Sorted (fun a b => msg_created_at a <= msg_created_at b) data
  /\ (forall m m', In m data -> In m' (MessageService.message_query db c cur) ->
        ~ In m' data -> msg_created_at m' <= msg_created_at m)
  /\ more = Nat.ltb limit (length (MessageService.message_query db c cur))
  /\ (more = false -> Permutation data (MessageService.message_query db c cur))
  /\ next = (if more then option_map msg_created_at (head data) else None).
Proof.
  pose proof (get_messages_sound db c cur limit) as Hsound.
  rewrite get_messages_shape in Hsound |- *. simpl in Hsound |- *.
  set (Q := MessageService.message_query db c cur) in *.
  set (L := merge_sort MessageService.newer_first Q) in *.
  assert (Hperm : L ≡ₚ Q) by apply merge_sort_Permutation.
  assert (Hss : StronglySorted MessageService.newer_first L)
    by (unfold L; apply (StronglySorted_merge_sort MessageService.newer_first); typeclasses eauto).
  rewrite <- (take_drop limit L) in Hss.
  assert (HlenL : length L = length Q) by (apply Permutation_length; exact Hperm).
  split; [|split; [exact Hsound|split; [|split; [|split; [|split]]]]].
  - rewrite length_reverse, length_take. lia.
  - apply Sorted_reverse. apply StronglySorted_Sorted.
    exact (StronglySorted_app_1_l _ _ _ Hss).
  - intros m m' Hm Hm' Hn.
    apply list_elem_of_In in Hm. rewrite elem_of_reverse in Hm.
    assert (Hm'L : m' ∈ L) by (rewrite Hperm; apply list_elem_of_In; exact Hm').
    rewrite <- (take_drop limit L) in Hm'L. apply elem_of_app in Hm'L as [Ht|Hd].
    + exfalso. apply Hn. apply list_elem_of_In, elem_of_reverse. exact Ht.
    + exact (StronglySorted_app_1_elem_of _ _ _ _ _ Hss Hm Hd).
  - rewrite HlenL. reflexivity.
  - intros Hf. rewrite HlenL in Hf. apply Nat.ltb_ge in Hf.
    rewrite take_ge by lia. rewrite reverse_Permutation. exact Hperm.
  - rewrite head_reverse. reflexivity.
Qed.

(** paging with [next_cursor] skips messages: a message of the query
    that has the same timestamp as [next_cursor] but did not fit on the
    page is not on the next page either ([created_at < cursor] excludes
    it). *)
Theorem get_messages_cursor_skips_ties (db : DB) (c : string) (cur : option Z)
    (limit : nat) (t : Z) (m' : Message) :
  snd (fst (MessageService.get_messages db c cur limit)) = Some t ->
  In m' (MessageService.message_query db c cur) ->
  msg_created_at m' = t ->
  ~ In m' (fst (fst (MessageService.get_messages db c cur limit))) ->
  ~ In m' (fst (fst (MessageService.get_messages db c (Some t) limit))).
Proof.
  intros _ _ Ht _ Hin.
  destruct (get_messages_sound db c (Some t) limit m' Hin) as [_ [_ Hlt]].
  specialize (Hlt t eq_refl). lia.
Qed.

(** ** Direct conversation lookup *)

Lemma conversation_type_eqb_eq a b : ConversationType_eqb a b = true -> a = b.
Proof. destruct a, b; simpl; congruence. Qed.

(** [get_direct_conversation(a, b)] only returns a stored DIRECT
    conversation in which both [a] and [b] are active participants, and it
    returns [None] only when no such conversation is stored. *)
Theorem get_direct_conversation_spec (db : DB) (a b : string) :
  (forall cv, MessageService.get_direct_conversation db a b = Some cv ->
     In cv (conversations db) /\ conv_type cv = DIRECT
     /\ MessageService.is_participant db (conv_id cv) a = true
     /\ MessageService.is_participant db (conv_id cv) b = true)
  /\ (MessageService.get_direct_conversation db a b = None
      <-> forall cv, In cv (conversations db) -> conv_type cv = DIRECT ->
            MessageService.is_participant db (conv_id cv) a = true ->
            MessageService.is_participant db (conv_id cv) b = true -> False).
Proof.
  split.
  - intros cv H. apply get_direct_sound in H as [Hd Hf].
    unfold direct_between in Hd. bool_split.
    unfold MessageService.find_direct in Hf. apply find_some in Hf as [Hin Hf].
    bool_split. match goal with H : ConversationType_eqb _ _ = true |- _ =>
      apply conversation_type_eqb_eq in H end. auto.
  - split.
    + intros Hn cv Hin Ht Ha Hb.
      destruct (get_direct_complete db a b (conv_id cv)) as [cv' Hcv']; [|congruence].
      unfold direct_between. rewrite Ha, Hb. simpl.
      destruct (MessageService.find_direct db (conv_id cv)) eqn:F; [reflexivity|].
      unfold MessageService.find_direct in F.
      pose proof (find_none _ _ F cv Hin) as Hc. cbv beta in Hc. rewrite String.eqb_refl, Ht in Hc.
      discriminate.
    + intros Hno. destruct (MessageService.get_direct_conversation db a b) as [cv|] eqn:G;
        [|reflexivity].
      exfalso. apply get_direct_sound in G as [Hd Hf].
      unfold direct_between in Hd. bool_split.
      unfold MessageService.find_direct in Hf. apply find_some in Hf as [Hin Hf].
      bool_split. match goal with H : ConversationType_eqb _ _ = true |- _ =>
        apply conversation_type_eqb_eq in H end.
      eapply Hno; eassumption.
Qed.

(** ** Leaving and re-joining a conversation *)

Lemma find_and_more {A} (f g : A -> bool) (l : list A) (p : A) :
  List.find f l = Some p -> g p = true -> List.find (fun x => f x && g x) l = Some p.
Proof.
  induction l as [|x l IH]; simpl; [discriminate|].
  destruct (f x) eqn:Fx; simpl.
  - intros [= <-] ->. reflexivity.
  - exact IH.
Qed.

(** a participant who leaves ([remove_participant]) and is added back
    ([add_participant]) gets the same record back, active again, with the
    new role and join time but the unread count and last-seen marker it
    had; no record is added. *)
Theorem remove_then_add_rejoins (db : DB) (c u : string) (now : Z)
    (role : ParticipantRole) (nid : string) (now' : Z) (p : ConversationParticipant) :
  MessageService.find_participant c u (participants db) = Some p ->
  is_active p = true ->
  let db1 := fst (MessageService.remove_participant db c u now) in
  let r := MessageService.add_participant db1 c u role nid now' in
  snd r = mkParticipant (part_id p) c u role (part_last_seen_message_id p)
            (part_unread_count p) now' None
  /\ MessageService.is_participant (fst r) c u = true
  /\ length (participants (fst r)) = length (participants db).
Proof.
  intros Hp Ha. cbv zeta.
  pose proof (find_participant_some _ _ _ _ Hp) as [Hin [Hc Hu]].
  set (left := mkParticipant (part_id p) (part_conversation_id p) (part_user_id p)
                 (part_role p) (part_last_seen_message_id p) (part_unread_count p)
                 (part_joined_at p) (Some now)).
  assert (R : MessageService.remove_participant db c u now
              = (mkDB (conversations db) (save_by part_id left (participants db))
                      (messages db), true)).
  { unfold MessageService.remove_participant.
    unfold MessageService.find_participant in Hp.
    rewrite (find_and_more _ is_active _ p Hp Ha). reflexivity. }
  rewrite R. simpl.
  assert (F : MessageService.find_participant c u (save_by part_id left (participants db))
              = Some left).
  { unfold MessageService.find_participant in Hp |- *.
    apply (find_save_by _ _ _ p); [exact Hp|reflexivity|].
    simpl. rewrite Hc, Hu, !String.eqb_refl. reflexivity. }
  assert (Hl : In left (save_by part_id left (participants db)))
    by (apply (save_by_in _ _ p); [exact Hin|reflexivity]).
  unfold MessageService.add_participant. simpl. rewrite F. simpl. rewrite Hc, Hu.
  split; [reflexivity|split].
  - eapply active_in_participant; simpl.
    + apply (save_by_in _ _ left); [exact Hl|reflexivity].
    + unfold active_in. simpl. rewrite !String.eqb_refl. reflexivity.
  - unfold save_by. rewrite !length_map_std. reflexivity.
Qed.

(** ** Sending a message *)

Lemma substring_length_le n s : (String.length (substring 0 n s) <= n)%nat.
Proof.
  revert s. induction n as [|n IH]; intros [|c s]; simpl; try lia.
  specialize (IH s). lia.
Qed.

Lemma preview_of_length content : (String.length (MessageService.preview_of content) <= 100)%nat.
Proof.
  unfold MessageService.preview_of.
  destruct content as [s|]; [|simpl; lia].
  destruct (String.eqb s ""); [simpl; lia|apply substring_length_le].
Qed.

(** [send_message] by an active participant appends exactly one message
    (the new id, conversation, sender and time, status [SENT]) after the
    stored ones and returns it; every stored record of that conversation
    gets the new message as its last message, with a preview of at most
    100 characters, and other conversations are untouched. *)
Theorem send_message_appends (db : DB) (c s : string) (data : MessageCreate)
    (nid : string) (now : Z) :
  MessageService.is_participant db c s = true ->
  let r := MessageService.send_message db c s data nid now in
  (exists msg, snd r = inr msg /\ messages (fst r) = messages db ++ [msg]
               /\ msg_id msg = nid /\ msg_conversation_id msg = c
               /\ msg_sender_id msg = s /\ msg_status msg = SENT
               /\ msg_created_at msg = now)
  /\ length (conversations (fst r)) = length (conversations db)
  /\ (forall i cv, conversations db !! i = Some cv -> conv_id cv <> c ->
        conversations (fst r) !! i = Some cv)
  /\ (forall i cv, conversations db !! i = Some cv -> conv_id cv = c ->
        exists cv' pv, conversations (fst r) !! i = Some cv'
          /\ conv_id cv' = c /\ conv_last_message_id cv' = Some nid
          /\ conv_last_message_at cv' = Some now
          /\ conv_last_message_content cv' = Some pv
          /\ (String.length pv <= 100)%nat).
Proof.
  intros Hp. cbv zeta. unfold MessageService.send_message. rewrite Hp. simpl.
  split; [eexists; repeat split; reflexivity|].
  destruct (List.find (fun cv => String.eqb (conv_id cv) c) (conversations db))
    as [conv|] eqn:F.
  - pose proof (find_some _ _ F) as [_ Hid]. apply String.eqb_eq in Hid.
    split; [unfold save_by; apply length_map_std|split].
    + intros i cv Hi Hne. apply lookup_save_by_other; [exact Hi|]. simpl. congruence.
    + intros i cv Hi Hc. unfold save_by. rewrite lookup_map_std, Hi. simpl.
      rewrite Hc, Hid, String.eqb_refl.
      eexists _, _. split; [reflexivity|]. simpl.
      repeat split; [exact Hid|apply preview_of_length].
  - split; [reflexivity|split; [intros; assumption|]].
    intros i cv Hi Hc. exfalso.
    apply list_elem_of_lookup_2 in Hi. apply list_elem_of_In in Hi.
    pose proof (find_none _ _ F cv Hi) as Hn. simpl in Hn.
    rewrite Hc, String.eqb_refl in Hn. discriminate.
Qed.

(* ------------------------------------------------------------------ *)
(** ** Instances of the further properties *)

Lemma remove_participant_deactivates_witness :
  (forall p q, In p (participants Sample.db) -> In q (participants Sample.db) ->
     active_in "c1" "bob" p = true -> active_in "c1" "bob" q = true ->
     part_id p = part_id q)
  /\ (let r := MessageService.remove_participant Sample.db "c1" "bob" 7 in
      snd r = MessageService.is_participant Sample.db "c1" "bob"
      /\ (snd r = false -> fst r = Sample.db)
      /\ MessageService.is_participant (fst r) "c1" "bob" = false).
Proof.
  assert (H : forall p q, In p (participants Sample.db) -> In q (participants Sample.db) ->
     active_in "c1" "bob" p = true -> active_in "c1" "bob" q = true ->
     part_id p = part_id q).
  { intros p q Hp Hq Ap Aq. simpl in Hp, Hq.
    destruct Hp as [<-|[<-|[<-|[]]]]; destruct Hq as [<-|[<-|[<-|[]]]];
      try reflexivity; vm_compute in Ap, Aq; discriminate. }
  split; [exact H|exact (remove_participant_deactivates Sample.db "c1" "bob" 7 H)].
Defined.

Lemma create_group_members_witness :
  let data := MessageService.mkConversationCreate GROUP ["bob"; "carol"; "bob"]
                (Some "team") None in
  MessageService.cc_type data = GROUP
  /\ (forall p, In p (participants Sample.db) -> part_conversation_id p <> Sample.gen 0%nat)
  /\ (let r := MessageService.create_conversation Sample.db "alice" data Sample.gen 3 in
      let ids := MessageService.cc_participant_ids data in
      (exists conv, snd r = inr conv /\ conv_id conv = Sample.gen 0%nat
                    /\ conv_created_by conv = Some "alice"
                    /\ In conv (conversations (fst r)))
      /\ (forall v, MessageService.is_participant (fst r) (Sample.gen 0%nat) v
                    = bool_decide (v ∈ "alice" :: ids))
      /\ (forall v, records_of (Sample.gen 0%nat) v (participants (fst r))
                    = if bool_decide (v ∈ "alice" :: ids) then 1%nat else 0%nat)
      /\ (exists p, MessageService.find_participant (Sample.gen 0%nat) "alice"
                      (participants (fst r)) = Some p
                    /\ part_role p = ADMIN)).
Proof.
  intros data.
  assert (Hf : forall p, In p (participants Sample.db) ->
                 part_conversation_id p <> Sample.gen 0%nat).
  { intros p Hp. simpl in Hp. destruct Hp as [<-|[<-|[<-|[]]]]; discriminate. }
  split; [reflexivity|split; [exact Hf|]].
  exact (create_group_members Sample.db "alice" data Sample.gen 3 eq_refl Hf).
Defined.

Lemma message_delivered_effect_witness :
  "m1" <> ""
  /\ (let db' := MessageConsumer.handle_message_delivered Sample.db (Some "m1") in
      conversations db' = conversations Sample.db
      /\ participants db' = participants Sample.db
      /\ List.find (fun m => String.eqb (msg_id m) "m1") (messages db')
         = option_map (fun m => if MessageStatus_eqb (msg_status m) SENT
                                then set_msg_status DELIVERED m else m)
             (List.find (fun m => String.eqb (msg_id m) "m1") (messages Sample.db))
      /\ (forall i x, messages Sample.db !! i = Some x -> msg_id x <> "m1" ->
            messages db' !! i = Some x)
      /\ MessageConsumer.handle_message_delivered db' (Some "m1") = db').
Proof.
  split; [discriminate|]. apply (message_delivered_effect Sample.db "m1"). discriminate.
Defined.

Lemma message_sent_recipients_witness :
  let online u := String.eqb u "bob" || String.eqb u "alice" in
  "m1" <> "" /\ "c1" <> "" /\ "alice" <> ""
  /\ List.find (fun m => String.eqb (msg_id m) "m1") (messages Sample.db) = Some Sample.m1
  /\ (let out := MessageConsumer.handle_message_sent Sample.db (Some "m1") (Some "c1")
                   (Some "alice") (JStr "t1") online in
      (forall u, In (u, MessageConsumer.PushNewMessage "c1" (msg_id Sample.m1)
                          (msg_sender_id Sample.m1)) out
                 <-> u <> "alice" /\ online u = true
                     /\ MessageService.is_participant Sample.db "c1" u = true)
      /\ (forall u p, In (u, p) out ->
            p = MessageConsumer.PushNewMessage "c1" (msg_id Sample.m1) (msg_sender_id Sample.m1)
            \/ (u = "alice" /\ p = MessageConsumer.PushAck (JStr "t1") "m1"))
      /\ (In ("alice", MessageConsumer.PushAck (JStr "t1") "m1") out <-> online "alice" = true)).
Proof.
  intros online.
  split; [discriminate|split; [discriminate|split; [discriminate|split; [reflexivity|]]]].
  apply (message_sent_recipients Sample.db "m1" "c1" "alice" (JStr "t1") online Sample.m1);
    [discriminate|discriminate|discriminate|reflexivity].
Defined.

Lemma process_message_valid_event_witness :
  let kvs := [("actor_id", JStr "alice"); ("user_id", JStr "bob"); ("post_id", JStr "x1")] in
  NotificationConsumer.ROUTING_KEY_TO_TYPE "post.liked" = Some NotificationConsumer.POST_LIKED
  /\ jget kvs "actor_id" = JStr "alice" /\ jget kvs "user_id" = JStr "bob"
  /\ "alice" <> "" /\ "bob" <> "" /\ "alice" <> "bob"
  /\ NotificationConsumer.as_opt_str (jget kvs "post_id") = Some (Some "x1")
  /\ NotificationConsumer.as_opt_str (jget kvs "comment_id") = Some None
  /\ (let st' := NotificationConsumer.process_message (NotificationConsumer.mkNState [] [])
                   "post.liked" (NotificationConsumer.Object kvs) [("alice", "Alice")]
                   (fun _ => true) "n1" in
      exists content,
        let n := NotificationConsumer.mkNotification "n1" "bob" "alice"
                   NotificationConsumer.POST_LIKED (Some "x1") None content in
        NotificationConsumer.notifications st' = [] ++ [n]
        /\ NotificationConsumer.published st' = [] ++ (if (fun _ => true) "bob" then [("bob", n)] else [])).
Proof.
  intros kvs.
  do 8 (split; [reflexivity || discriminate|]).
  apply (process_message_valid_event (NotificationConsumer.mkNState [] []) "post.liked" kvs
           [("alice", "Alice")] (fun _ => true) "n1" NotificationConsumer.POST_LIKED
           "alice" "bob" (Some "x1") None);
    reflexivity || discriminate.
Defined.

Lemma ws_mark_seen_without_membership_witness :
  let msg := [("type", JStr "MARK_SEEN"); ("conversationId", JStr "c1");
              ("messageId", JStr "m3")] in
  jget msg "type" = JStr "MARK_SEEN"
  /\ jget msg "conversationId" = JStr "c1" /\ jget msg "messageId" = JStr "m3"
  /\ "c1" <> "" /\ "m3" <> ""
  /\ MessageService.find_participant "c1" "dave" (participants Sample.db) = None
  /\ Websocket.handle_client_message Sample.db "dave" msg "x" 0
     = Websocket.Returned Sample.db [Websocket.EvMessageSeen "c1" "m3" "dave"] [].
Proof.
  intros msg.
  do 6 (split; [reflexivity || discriminate|]).
  apply (ws_mark_seen_without_membership Sample.db "dave" msg "c1" "m3" "x" 0);
    reflexivity || discriminate.
Defined.

Lemma presence_users_isolated_witness :
  "alice" <> "bob"
  /\ Presence.is_user_online 5 "bob" (Presence.add_socket 0 "alice" "s1" ∅)
     = Presence.is_user_online 5 "bob" ∅
  /\ Presence.is_user_online 5 "bob" (Presence.remove_socket 0 "alice" "s1" ∅)
     = Presence.is_user_online 5 "bob" ∅.
Proof.
  split; [discriminate|].
  apply (presence_users_isolated 0 5 "alice" "bob" "s1" ∅). discriminate.
Defined.

Lemma listener_receiving_never_gives_up_witness :
  let passes := [Relay.FailsAfter 1; Relay.FailsAfter 3; Relay.CancelledAfter 0] in
  Forall receives_before_failing passes
  /\ ~ In Relay.MaxRetriesReached (Relay.listener passes)
  /\ (forall d, In d (Relay.delays (Relay.listener passes)) -> d = 2).
Proof.
  intros passes.
  assert (H : Forall receives_before_failing passes).
  { unfold passes. constructor; [simpl; lia|]. constructor; [simpl; lia|].
    constructor; [exact I|]. constructor. }
  split; [exact H|exact (listener_receiving_never_gives_up passes H)].
Defined.

Lemma get_messages_cursor_skips_ties_witness :
  snd (fst (MessageService.get_messages Sample.tie_db "c1" None 1)) = Some 7
  /\ In Sample.m5 (MessageService.message_query Sample.tie_db "c1" None)
  /\ msg_created_at Sample.m5 = 7
  /\ ~ In Sample.m5 (fst (fst (MessageService.get_messages Sample.tie_db "c1" None 1)))
  /\ ~ In Sample.m5 (fst (fst (MessageService.get_messages Sample.tie_db "c1" (Some 7) 1))).
Proof.
  assert (H1 : snd (fst (MessageService.get_messages Sample.tie_db "c1" None 1)) = Some 7)
    by (vm_compute; reflexivity).
  assert (H2 : In Sample.m5 (MessageService.message_query Sample.tie_db "c1" None))
    by (vm_compute; right; left; reflexivity).
  assert (H4 : ~ In Sample.m5 (fst (fst (MessageService.get_messages Sample.tie_db "c1" None 1))))
    by (vm_compute; intros [H|[]]; discriminate).
  split; [exact H1|split; [exact H2|split; [reflexivity|split; [exact H4|]]]].
  exact (get_messages_cursor_skips_ties Sample.tie_db "c1" None 1 7 Sample.m5 H1 H2 eq_refl H4).
Defined.

Lemma remove_then_add_rejoins_witness :
  MessageService.find_participant "c1" "bob" (participants Sample.db) = Some Sample.p_bob
  /\ is_active Sample.p_bob = true
  /\ (let db1 := fst (MessageService.remove_participant Sample.db "c1" "bob" 10) in
      let r := MessageService.add_participant db1 "c1" "bob" MEMBER "q9" 20 in
      snd r = mkParticipant (part_id Sample.p_bob) "c1" "bob" MEMBER
                (part_last_seen_message_id Sample.p_bob) (part_unread_count Sample.p_bob) 20 None
      /\ MessageService.is_participant (fst r) "c1" "bob" = true
      /\ length (participants (fst r)) = length (participants Sample.db)).
Proof.
  split; [reflexivity|split; [reflexivity|]].
  apply (remove_then_add_rejoins Sample.db "c1" "bob" 10 MEMBER "q9" 20 Sample.p_bob);
    reflexivity.
Defined.

Lemma send_message_appends_witness :
  MessageService.is_participant Sample.db "c1" "alice" = true
  /\ (let r := MessageService.send_message Sample.db "c1" "alice" Sample.data "m9" 12 in
      (exists msg, snd r = inr msg /\ messages (fst r) = messages Sample.db ++ [msg]
                   /\ msg_id msg = "m9" /\ msg_conversation_id msg = "c1"
                   /\ msg_sender_id msg = "alice" /\ msg_status msg = SENT
                   /\ msg_created_at msg = 12)
      /\ length (conversations (fst r)) = length (conversations Sample.db)
      /\ (forall i cv, conversations Sample.db !! i = Some cv -> conv_id cv <> "c1" ->
            conversations (fst r) !! i = Some cv)
      /\ (forall i cv, conversations Sample.db !! i = Some cv -> conv_id cv = "c1" ->
            exists cv' pv, conversations (fst r) !! i = Some cv'
              /\ conv_id cv' = "c1" /\ conv_last_message_id cv' = Some "m9"
              /\ conv_last_message_at cv' = Some 12
              /\ conv_last_message_content cv' = Some pv
              /\ (String.length pv <= 100)%nat)).
Proof.
  split; [reflexivity|].
  apply (send_message_appends Sample.db "c1" "alice" Sample.data "m9" 12). reflexivity.
Defined.
